(** * Motion and meter readings: classifier, validators, sanitizer, rules

    A shallow embedding of [src/index.ts], in its second listing (the one
    with the branded speed, [isNumber], [assertNotZeroOrNegative] and the
    repository class; the first listing has the same classifier, the same
    [assertIsMoving] and the same two rules).

    JavaScript numbers are IEEE 754 binary64 values ([spec_float]).  Objects
    live in a heap of cells addressed by references, so that
    [structuredClone] and the later assignment to the clone's [speed]
    property are modelled with their aliasing.  Thrown values, console
    warnings and the calls to the collaborators are threaded through a small
    state-and-exception monad; an [async] function that rejects is a
    computation that ends abruptly.

    The date library, the history store and the database client are not
    part of the source: they are parameters ([Luxon], [Host],
    [Collaborators]).  The brand [NotZeroOrNegative] exists only for the
    type checker and leaves no trace at run time. *)

From Stdlib Require Import ZArith QArith Qpower String List Lia.
From Stdlib Require Import Floats.SpecFloat.
From stdpp Require Import base option gmap.

Import ListNotations.
Local Open Scope string_scope.
Local Open Scope list_scope.

(** ** JavaScript numbers *)

Module Number.

Definition number := spec_float.

Definition prec : Z := 53.
Definition emax : Z := 1024.

Definition zero : number := S754_zero false.

(** The literal [12]: 6755399441055744 * 2^-49. *)
Definition twelve : number := S754_finite false 6755399441055744 (-49).

(** [Number.isFinite] on a value already known to be a number. *)
Definition isFiniteNumber (x : number) : bool :=
  match x with
  | S754_zero _ | S754_finite _ _ _ => true
  | S754_infinity _ | S754_nan => false
  end.

(** The relational operators of the language on numbers; every
    comparison with NaN is false. *)
Definition lt (x y : number) : bool := SFltb x y.
Definition le (x y : number) : bool := SFleb x y.
Definition gt (x y : number) : bool := SFltb y x.

(** ToBoolean on a number: +0, -0 and NaN are falsy. *)
Definition truthy (x : number) : bool :=
  match x with
  | S754_zero _ | S754_nan => false
  | S754_infinity _ | S754_finite _ _ _ => true
  end.

(** The magnitude of a finite number with mantissa [m] and exponent [e]. *)
Definition mag (m : positive) (e : Z) : Q :=
  (inject_Z (Z.pos m) * Qpower 2 e)%Q.

(** The rational denoted by a finite number; [None] for NaN and the
    infinities. *)
Definition toQ (x : number) : option Q :=
  match x with
  | S754_zero _ => Some 0%Q
  | S754_finite s m e => Some (if s then Qopp (mag m e) else mag m e)
  | S754_infinity _ | S754_nan => None
  end.

(** Conversion of an integer to the nearest number. *)
Definition ofZ (z : Z) : number := binary_normalize prec emax z 0 false.

End Number.

Export Number(number).

(** ** Values, objects and the heap *)

Definition loc := positive.

Inductive value :=
| VUndefined
| VNull
| VBool (b : bool)
| VNumber (n : number)
| VString (s : string)
| VRef (l : loc).

(** A heap cell is a plain object (its own properties, in insertion order)
    or a [Date] holding its time value in milliseconds since the epoch,
    [None] for an invalid date. *)
Inductive object :=
| OPlain (props : list (string * value))
| ODate (tv : option Z).

Abbreviation heap := (gmap loc object).

(** ToBoolean. *)
Definition truthy (v : value) : bool :=
  match v with
  | VUndefined | VNull => false
  | VBool b => b
  | VNumber n => Number.truthy n
  | VString s => negb (String.eqb s "")
  | VRef _ => true
  end.

(** Strict equality [===]. *)
Definition strict_eq (v w : value) : bool :=
  match v, w with
  | VUndefined, VUndefined | VNull, VNull => true
  | VBool a, VBool b => Bool.eqb a b
  | VNumber a, VNumber b => SFeqb a b
  | VString a, VString b => String.eqb a b
  | VRef a, VRef b => Pos.eqb a b
  | _, _ => false
  end.

(** Property read [o.k] on the own properties of a plain object: an absent
    property reads as [undefined]. *)
Fixpoint get_own (props : list (string * value)) (k : string) : value :=
  match props with
  | [] => VUndefined
  | (k', v) :: rest => if String.eqb k' k then v else get_own rest k
  end.

(** Property write [o.k = v]: an existing property keeps its position, a
    new one is added last. *)
Fixpoint set_own (props : list (string * value)) (k : string) (v : value)
  : list (string * value) :=
  match props with
  | [] => [(k, v)]
  | (k', v') :: rest =>
      if String.eqb k' k then (k', v) :: rest
      else (k', v') :: set_own rest k v
  end.

(** ** Effects *)

(** What a [throw] (or a rejected promise) carries.  The validators throw
    string literals; the built-ins raise error objects, identified here by
    their constructor; a collaborator may reject with any reason. *)
Inductive exn :=
| ThrowString (s : string)
| RangeError
| TypeError
| DataCloneError
| Rejected (reason : value).

(** Observable interactions, in the order they happen.  A tagged template
    [console.warn`a ${x} b`] calls [console.warn] with the literal chunks
    and then the substituted values. *)
Inductive event :=
| ConsoleWarn (strings : list string) (args : list value)
| GetLastMovingRecord (deviceId : value)
| GetLastStaticRecord (deviceId : value)
| DbCreate (record : value).

Record state := mkState { st_heap : heap; st_trace : list event }.

Inductive completion (A : Type) :=
| Normal (a : A)
| Abrupt (e : exn).
Arguments Normal {A} a.
Arguments Abrupt {A} e.

Definition M (A : Type) := state -> completion A * state.

Definition ret {A} (a : A) : M A := fun s => (Normal a, s).

Definition bind {A B} (m : M A) (k : A -> M B) : M B :=
  fun s =>
    match m s with
    | (Normal a, s') => k a s'
    | (Abrupt e, s') => (Abrupt e, s')
    end.

Definition throw {A} (e : exn) : M A := fun s => (Abrupt e, s).

Notation "x <- m ;; k" := (bind m (fun x => k))
  (at level 100, m at next level, right associativity).
Notation "m ;;; k" := (bind m (fun _ => k))
  (at level 100, right associativity).

Definition emit (e : event) : M unit :=
  fun s => (Normal tt, mkState (st_heap s) (st_trace s ++ [e])).

Definition console_warn (strings : list string) (args : list value) : M unit :=
  emit (ConsoleWarn strings args).

(** Awaiting a promise that settles with the completion [c]. *)
Definition await {A} (c : completion A) : M A := fun s => (c, s).

(** Reading a property of the object a value refers to.  Reading from
    [undefined] or [null] is a TypeError; a primitive or a [Date] has none of
    the properties used here. *)
Definition get_prop (o : value) (k : string) : M value :=
  fun s =>
    match o with
    | VUndefined | VNull => (Abrupt TypeError, s)
    | VRef l =>
        match st_heap s !! l with
        | Some (OPlain props) => (Normal (get_own props k), s)
        | Some (ODate _) => (Normal VUndefined, s)
        | None => (Abrupt TypeError, s)
        end
    | _ => (Normal VUndefined, s)
    end.

(** Writing a property of the object a value refers to.  The source is a
    module, hence strict code, where a write to a primitive is a TypeError.
    A [Date] carries no own properties in this model, and a write to one is
    not recorded. *)
Definition set_prop (o : value) (k : string) (v : value) : M unit :=
  fun s =>
    match o with
    | VRef l =>
        match st_heap s !! l with
        | Some (OPlain props) =>
            (Normal tt,
             mkState (<[l := OPlain (set_own props k v)]> (st_heap s))
                     (st_trace s))
        | Some (ODate _) => (Normal tt, s)
        | None => (Abrupt TypeError, s)
        end
    | _ => (Abrupt TypeError, s)
    end.

(** ** [structuredClone] *)

Definition alloc (o : object) (h : heap) : loc * heap :=
  let l := fresh (dom h) in (l, <[l := o]> h).

Section CloneProps.
Variable clone_value : value -> heap -> option (value * heap).

Fixpoint clone_props (props : list (string * value)) (h : heap)
  : option (list (string * value) * heap) :=
  match props with
  | [] => Some ([], h)
  | (k, v) :: rest =>
      match clone_value v h with
      | Some (v', h1) =>
          match clone_props rest h1 with
          | Some (rest', h2) => Some ((k, v') :: rest', h2)
          | None => None
          end
      | None => None
      end
  end.
End CloneProps.

(** The deep copy: primitives are copied as they are, a [Date] becomes a new
    [Date] with the same time value, a plain object becomes a new plain
    object whose properties are the copies of the original's.  [fuel] bounds
    the nesting depth. *)
Fixpoint clone (fuel : nat) (v : value) (h : heap) : option (value * heap) :=
  match v with
  | VRef l =>
      match fuel with
      | O => None
      | S n =>
          match h !! l with
          | Some (ODate tv) =>
              let '(l', h') := alloc (ODate tv) h in Some (VRef l', h')
          | Some (OPlain props) =>
              match clone_props (clone n) props h with
              | Some (props', h1) =>
                  let '(l', h2) := alloc (OPlain props') h1 in
                  Some (VRef l', h2)
              | None => None
              end
          | None => None
          end
      end
  | _ => Some (v, h)
  end.

(** No chain of distinct objects is longer than the heap, so this much fuel
    copies every object graph without cycles; the reading types allow no
    cycles, and the model reports a graph it cannot copy as a
    DataCloneError. *)
Definition structuredClone (v : value) : M value :=
  fun s =>
    match clone (S (size (st_heap s))) v (st_heap s) with
    | Some (v', h') => (Normal v', mkState h' (st_trace s))
    | None => (Abrupt DataCloneError, s)
    end.

(** ** Meter readings *)

Module MeterDto.
Record t := mk {
  sensorId : string;
  deviceId : string;
  powerConsumption : number;
  maximumPowerConsumption : number
}.
End MeterDto.

(** ** Classifier and validators *)

Definition isPowerConsumptionHigh (meterDto : MeterDto.t) : bool :=
  Number.gt (MeterDto.powerConsumption meterDto)
            (MeterDto.maximumPowerConsumption meterDto).

(** [Number.isFinite]: no coercion, so only numbers can pass. *)
Definition isNumber (input : value) : bool :=
  match input with
  | VNumber n => Number.isFiniteNumber n
  | _ => false
  end.

Definition assertIsMoving (motionDto : value) : M unit :=
  status <- get_prop motionDto "status" ;;
  if strict_eq status (VString "moving") then
    speed <- get_prop motionDto "speed" ;;
    if negb (truthy speed) then throw (ThrowString "NotMoving!") else ret tt
  else ret tt.

Definition assertNotZeroOrNegative (speed : value) : M unit :=
  if negb (isNumber speed) then throw (ThrowString "UnknownDataType")
  else
    match speed with
    | VNumber n =>
        if Number.le n Number.zero then throw (ThrowString "NotZeroOrNegative")
        else ret tt
    | _ => ret tt (* not reached: [isNumber] holds of numbers only *)
    end.

Definition isStatic (motionDto : value) : M bool :=
  status <- get_prop motionDto "status" ;;
  ret (strict_eq status (VString "static")).

(** [Date.prototype.toISOString], given the formatting of a valid time
    value: an invalid date raises a RangeError. *)
Definition toISOString (formatISO : Z -> string) (date : value) : M string :=
  fun s =>
    match date with
    | VRef l =>
        match st_heap s !! l with
        | Some (ODate (Some ms)) => (Normal (formatISO ms), s)
        | Some (ODate None) => (Abrupt RangeError, s)
        | _ => (Abrupt TypeError, s)
        end
    | _ => (Abrupt TypeError, s)
    end.

(** A record of the history store; only its timestamp is read. *)
Record HistoricalRecord := { timestamp : string }.

(** ** What the program takes from outside *)

(** The date library: parsing an ISO 8601 string to an instant, and
    [a.diff(b, 'hours').hours], the hours elapsed from [b] to [a]. *)
Class Luxon := {
  DateTime : Type;
  fromISO : string -> DateTime;
  diff_hours : DateTime -> DateTime -> number
}.

(** The host's rendering of a valid time value as an ISO 8601 string. *)
Class Host := {
  formatISO : Z -> string
}.

(** The collaborators: how each lookup of the history store settles for a
    device, and what the database client does with the record it is handed
    (its result and the heap it leaves). *)
Class Collaborators := {
  lastMovingRecord : value -> completion HistoricalRecord;
  lastStaticRecord : value -> completion HistoricalRecord;
  dbClient_create : value -> heap -> completion value * heap
}.

Module motionRepository.

Definition getLastMovingRecord `{Collaborators} (deviceId : value)
  : M HistoricalRecord :=
  emit (GetLastMovingRecord deviceId) ;;;
  await (lastMovingRecord deviceId).

Definition getLastStaticRecord `{Collaborators} (deviceId : value)
  : M HistoricalRecord :=
  emit (GetLastStaticRecord deviceId) ;;;
  await (lastStaticRecord deviceId).

End motionRepository.

Module dbClient.

Definition create `{Collaborators} (record : value) : M value :=
  emit (DbCreate record) ;;;
  fun s =>
    let '(c, h') := dbClient_create record (st_heap s) in
    (c, mkState h' (st_trace s)).

End dbClient.

(** ** The repository class *)

Module MotionRepository.

Definition sanitizeSpeed (speed : value) : value :=
  let sanitizedSpeed := speed in
  sanitizedSpeed.

Definition createMovingMotion `{Collaborators} (motionDto : value)
  : M value :=
  sanitizedMotion <- structuredClone motionDto ;;
  assertIsMoving sanitizedMotion ;;;
  speed <- get_prop sanitizedMotion "speed" ;;
  assertNotZeroOrNegative speed ;;;
  speed <- get_prop sanitizedMotion "speed" ;;
  set_prop sanitizedMotion "speed" (sanitizeSpeed speed) ;;;
  dbClient.create sanitizedMotion.

End MotionRepository.

(** ** The two rules *)

Definition too_low_strings : list string :=
  ["Sensitivity level is too low for device "; "!"].
Definition too_high_strings : list string :=
  ["Sensitivity level is too high for device "; "!"].
Definition high_power_strings : list string :=
  ["Current power consumption for device "; " is high!"].
Definition moving_cause_strings : list string :=
  ["This could be caused because it is moving according to sensor ";
   " with the speed of "; ""].

Definition sanityCheckSensitivity `{Luxon} `{Host} `{Collaborators}
    (motionDto : value) : M unit :=
  static <- isStatic motionDto ;;
  if static then
    deviceId <- get_prop motionDto "deviceId" ;;
    lastMovingRecord <- motionRepository.getLastMovingRecord deviceId ;;
    let lastMovingDate := fromISO (timestamp lastMovingRecord) in
    date <- get_prop motionDto "timestamp" ;;
    iso <- toISOString formatISO date ;;
    let currentStaticDate := fromISO iso in
    let diff := diff_hours currentStaticDate lastMovingDate in
    (if Number.gt diff Number.twelve then
       deviceId <- get_prop motionDto "deviceId" ;;
       console_warn too_low_strings [deviceId]
     else ret tt) ;;;
    ret tt
  else
    deviceId <- get_prop motionDto "deviceId" ;;
    lastStaticRecord <- motionRepository.getLastStaticRecord deviceId ;;
    let lastStaticDate := fromISO (timestamp lastStaticRecord) in
    date <- get_prop motionDto "timestamp" ;;
    iso <- toISOString formatISO date ;;
    let currentMovingDate := fromISO iso in
    let diff := diff_hours currentMovingDate lastStaticDate in
    if Number.gt diff Number.twelve then
      deviceId <- get_prop motionDto "deviceId" ;;
      console_warn too_high_strings [deviceId]
    else ret tt.

Definition notifyMeOnMovingHighConsumptionDevice
    (motionDto : value) (meterDto : MeterDto.t) : M unit :=
  if negb (isPowerConsumptionHigh meterDto) then ret tt
  else
    assertIsMoving motionDto ;;;
    deviceId <- get_prop motionDto "deviceId" ;;
    console_warn high_power_strings [deviceId] ;;;
    sensorId <- get_prop motionDto "sensorId" ;;
    speed <- get_prop motionDto "speed" ;;
    console_warn moving_cause_strings [sensorId; speed].

(** ** The reading types, as views of heap objects *)

Module Motion.
(** The fields both variants share; [timestamp] refers to a [Date]. *)
Record base := mk {
  sensorId : string;
  deviceId : string;
  timestamp : loc;
  sensitivity : string
}.
End Motion.

(** The discriminated union.  A moving reading arrives from outside, so its
    [speed] is whatever value was sent, a number when it is well typed. *)
Inductive MotionDto :=
| StaticMotionDto (b : Motion.base)
| MovingMotionDto (b : Motion.base) (speed : value).

Definition base_of (m : MotionDto) : Motion.base :=
  match m with
  | StaticMotionDto b | MovingMotionDto b _ => b
  end.

Definition base_props (b : Motion.base) (status : string)
  : list (string * value) :=
  [ ("sensorId", VString (Motion.sensorId b));
    ("deviceId", VString (Motion.deviceId b));
    ("timestamp", VRef (Motion.timestamp b));
    ("sensitivity", VString (Motion.sensitivity b));
    ("status", VString status) ].

(** The own properties of the object a reading is. *)
Definition props_of (m : MotionDto) : list (string * value) :=
  match m with
  | StaticMotionDto b => base_props b "static"
  | MovingMotionDto b speed => base_props b "moving" ++ [("speed", speed)]
  end.

Definition is_primitive (v : value) : bool :=
  match v with
  | VRef _ => false
  | _ => true
  end.

Definition speed_of (m : MotionDto) : value :=
  match m with
  | StaticMotionDto _ => VUndefined
  | MovingMotionDto _ speed => speed
  end.

(** The reading [m] with its timestamp held by the [Date] at [l]. *)
Definition with_timestamp (m : MotionDto) (l : loc) : MotionDto :=
  let b := base_of m in
  let b' := Motion.mk (Motion.sensorId b) (Motion.deviceId b) l
                      (Motion.sensitivity b) in
  match m with
  | StaticMotionDto _ => StaticMotionDto b'
  | MovingMotionDto _ speed => MovingMotionDto b' speed
  end.

(** The cell at [l] is the reading [m], whose timestamp is a [Date] cell
    with time value [tv] and whose speed, if any, is no object. *)
Definition reading_at (h : heap) (l : loc) (m : MotionDto) (tv : option Z)
  : Prop :=
  h !! l = Some (OPlain (props_of m)) /\
  h !! Motion.timestamp (base_of m) = Some (ODate tv) /\
  is_primitive (speed_of m) = true.

(** ** Notions the properties are stated with *)

(** The cells an operation handed [v] can get at. *)
Inductive reach (h : heap) : value -> loc -> Prop :=
| reach_here l : reach h (VRef l) l
| reach_prop l props k v l' :
    h !! l = Some (OPlain props) ->
    In (k, v) props ->
    reach h v l' ->
    reach h (VRef l) l'.

(** The database client touches nothing but the record it is handed and
    what that record refers to. *)
Definition create_keeps_to_its_record `{Collaborators} : Prop :=
  forall (record : value) (h : heap) (l : loc),
    l ∈ dom h -> ~ reach h record l ->
    (dbClient_create record h).2 !! l = h !! l.

#[global] Instance spec_float_eq_dec : EqDecision spec_float.
Proof. solve_decision. Defined.

#[global] Instance value_eq_dec : EqDecision value.
Proof. solve_decision. Defined.

Section PropsEqual.
Variable value_equal : value -> value -> bool.

Fixpoint props_equal (p q : list (string * value)) : bool :=
  match p, q with
  | [], [] => true
  | (k1, v1) :: p', (k2, v2) :: q' =>
      String.eqb k1 k2 && value_equal v1 v2 && props_equal p' q'
  | _, _ => false
  end.
End PropsEqual.

(** Deep equality of [v1] in heap [h1] with [v2] in heap [h2]: primitives
    are the same value, dates have the same time value, plain objects have
    the same properties with deeply equal values.  [fuel] bounds the depth
    compared. *)
Fixpoint deep_equal (fuel : nat) (h1 : heap) (v1 : value)
    (h2 : heap) (v2 : value) : bool :=
  match v1, v2 with
  | VRef l1, VRef l2 =>
      match fuel with
      | O => false
      | S n =>
          match h1 !! l1, h2 !! l2 with
          | Some (ODate t1), Some (ODate t2) => bool_decide (t1 = t2)
          | Some (OPlain p1), Some (OPlain p2) =>
              props_equal (fun w1 w2 => deep_equal n h1 w1 h2 w2) p1 p2
          | _, _ => false
          end
      end
  | VRef _, _ | _, VRef _ => false
  | _, _ => bool_decide (v1 = v2)
  end.

(** The clone of a value is of the same kind: a primitive is unchanged and
    a reference becomes a reference. *)
Definition same_kind (v v' : value) : Prop :=
  match v with
  | VRef _ => exists l', v' = VRef l'
  | _ => v' = v
  end.

(** What a sound copying function guarantees: the heap only grows, and
    everything the copy can get at is a cell that was not there before. *)
Definition clone_sound (f : value -> heap -> option (value * heap)) : Prop :=
  forall v h v' h',
    f v h = Some (v', h') ->
    h ⊆ h' /\
    (forall l, reach h' v' l -> l ∈ dom h' /\ l ∉ dom h) /\
    same_kind v v'.

(** The two validations of [createMovingMotion], run on one object. *)
Definition validate (motionDto : value) : M unit :=
  assertIsMoving motionDto ;;;
  speed <- get_prop motionDto "speed" ;;
  assertNotZeroOrNegative speed.

(** The heap after the copy of a reading [m] held in [h]: a new [Date] with
    the time value [tv], then the new object, whose timestamp is that
    [Date]. *)
Definition date_copied (h : heap) (tv : option Z) : heap :=
  <[fresh (dom h) := ODate tv]> h.

Definition copy_loc (h : heap) (tv : option Z) : loc :=
  fresh (dom (date_copied h tv)).

Definition copy_of (h : heap) (m : MotionDto) : MotionDto :=
  with_timestamp m (fresh (dom h)).

Definition reading_copied (h : heap) (m : MotionDto) (tv : option Z) : heap :=
  <[copy_loc h tv := OPlain (props_of (copy_of h m))]> (date_copied h tv).

(** The device of a reading, as the value its [deviceId] property holds. *)
Definition device_of (m : MotionDto) : value :=
  VString (Motion.deviceId (base_of m)).

(** The lookup of the record of the opposite state: the last moving record
    for a static reading, the last static record for a moving one. *)
Definition opposite_fetch (m : MotionDto) : event :=
  match m with
  | StaticMotionDto _ => GetLastMovingRecord (device_of m)
  | MovingMotionDto _ _ => GetLastStaticRecord (device_of m)
  end.

(** How that lookup settles. *)
Definition opposite_record `{Collaborators} (m : MotionDto)
  : completion HistoricalRecord :=
  match m with
  | StaticMotionDto _ => lastMovingRecord (device_of m)
  | MovingMotionDto _ _ => lastStaticRecord (device_of m)
  end.

(** The warning of the rule: too low for a static reading, too high for a
    moving one, with the device substituted. *)
Definition sensitivity_warning (m : MotionDto) : event :=
  match m with
  | StaticMotionDto _ => ConsoleWarn too_low_strings [device_of m]
  | MovingMotionDto _ _ => ConsoleWarn too_high_strings [device_of m]
  end.

(** The hours elapsed from the record to a reading taken at [ms]. *)
Definition elapsed_hours `{Luxon} `{Host} (ms : Z) (record : HistoricalRecord)
  : number :=
  diff_hours (fromISO (formatISO ms)) (fromISO (timestamp record)).

(** Whether an event is a lookup in the history store. *)
Definition is_fetch (e : event) : bool :=
  match e with
  | GetLastMovingRecord _ | GetLastStaticRecord _ => true
  | _ => false
  end.

(** ** The order of numbers, as the reals extended with two infinities *)

Module NumberOrder.

Inductive ereal := NegInf | Fin (q : Q) | PosInf.

(** What a number denotes; NaN denotes nothing. *)
Definition denote (x : number) : option ereal :=
  match x with
  | S754_nan => None
  | S754_infinity s => Some (if s then NegInf else PosInf)
  | _ => option_map Fin (Number.toQ x)
  end.

Definition ereal_lt (a b : ereal) : Prop :=
  match a, b with
  | NegInf, NegInf => False
  | NegInf, _ => True
  | Fin p, Fin q => (p < q)%Q
  | Fin _, PosInf => True
  | _, _ => False
  end.

Definition ecompare (a b : ereal) : comparison :=
  match a, b with
  | NegInf, NegInf | PosInf, PosInf => Eq
  | NegInf, _ | _, PosInf => Lt
  | PosInf, _ | _, NegInf => Gt
  | Fin p, Fin q => (p ?= q)%Q
  end.

(** [x] is greater than [y]: both denote something, and in that order. *)
Definition greater (x y : number) : Prop :=
  match denote x, denote y with
  | Some a, Some b => ereal_lt b a
  | _, _ => False
  end.

(** [x] and [y] are the same quantity (so +0 and -0 are). *)
Definition equal (x y : number) : Prop :=
  match denote x, denote y with
  | Some a, Some b => ecompare a b = Eq
  | _, _ => False
  end.

(** A well-formed binary64 number. *)
Definition valid (x : number) : Prop :=
  valid_binary Number.prec Number.emax x = true.

End NumberOrder.

(** ** Test doubles and sample readings *)

Module Fixture.

(** The instants the samples use, with their ISO 8601 renderings. *)
Definition instants : list (string * Z) :=
  [ ("1970-01-01T00:00:00.000Z", 0%Z);
    ("1970-01-01T11:59:56.400Z", 43196400%Z);
    ("1970-01-01T12:00:00.000Z", 43200000%Z);
    ("1970-01-01T13:00:00.000Z", 46800000%Z) ].

Fixpoint parse (table : list (string * Z)) (iso : string) : option Z :=
  match table with
  | [] => None
  | (s, ms) :: rest => if String.eqb s iso then Some ms else parse rest iso
  end.

Fixpoint render (table : list (string * Z)) (ms : Z) : string :=
  match table with
  | [] => ""
  | (s, ms') :: rest => if Z.eqb ms' ms then s else render rest ms
  end.

(** A date library over these instants: an unknown string is an invalid
    instant, and a difference with one is NaN; otherwise the difference in
    hours is the quotient, in binary64, of the milliseconds by 3600000. *)
Definition luxon : Luxon := {|
  DateTime := option Z;
  fromISO := parse instants;
  diff_hours := fun a b =>
    match a, b with
    | Some x, Some y =>
        SFdiv Number.prec Number.emax
              (Number.ofZ (x - y)) (Number.ofZ 3600000)
    | _, _ => S754_nan
    end
|}.

Definition host : Host := {| formatISO := render instants |}.

(** A database client that stamps the record it is handed with an [id]
    and returns it. *)
Definition stamp (record : value) (h : heap) : completion value * heap :=
  match record with
  | VRef l =>
      match h !! l with
      | Some (OPlain props) =>
          (Normal record,
           <[l := OPlain (set_own props "id" (VNumber (Number.ofZ 1)))]> h)
      | _ => (Normal record, h)
      end
  | _ => (Normal record, h)
  end.

(** A history store whose last record of either state has the timestamp
    [iso]. *)
Definition collaborators_at (iso : string) : Collaborators := {|
  lastMovingRecord := fun _ => Normal {| timestamp := iso |};
  lastStaticRecord := fun _ => Normal {| timestamp := iso |};
  dbClient_create := stamp
|}.

(** The last record at hour 0, and at hour 13. *)
Definition collaborators : Collaborators :=
  collaborators_at "1970-01-01T00:00:00.000Z".
Definition lateHistory : Collaborators :=
  collaborators_at "1970-01-01T13:00:00.000Z".

Definition hour0 : HistoricalRecord :=
  {| timestamp := "1970-01-01T00:00:00.000Z" |}.
Definition hour13 : HistoricalRecord :=
  {| timestamp := "1970-01-01T13:00:00.000Z" |}.

Definition base : Motion.base :=
  Motion.mk "sensor-1" "device-1" 2%positive "high".

Definition five : number := Number.ofZ 5.

Definition staticReading : MotionDto := StaticMotionDto base.
Definition movingReading : MotionDto := MovingMotionDto base (VNumber five).
Definition stoppedReading : MotionDto :=
  MovingMotionDto base (VNumber Number.zero).

(** A state holding the reading [m] at reference 1 and its [Date], at
    [ms] milliseconds, at reference 2; nothing has happened yet. *)
Definition state_with (m : MotionDto) (ms : Z) : state :=
  mkState (<[1%positive := OPlain (props_of m)]>
             (<[2%positive := ODate (Some ms)]> ∅))
          [].

(** What the sensitivity rule leaves in the trace when run on [m] taken at
    [ms], against the history [C]. *)
Definition rule_trace (C : Collaborators) (m : MotionDto) (ms : Z)
  : list event :=
  st_trace (@sanityCheckSensitivity luxon host C
              (VRef 1%positive) (state_with m ms)).2.

Definition highMeter : MeterDto.t :=
  MeterDto.mk "meter-1" "device-1" (Number.ofZ 100) (Number.ofZ 50).
Definition lowMeter : MeterDto.t :=
  MeterDto.mk "meter-1" "device-1" (Number.ofZ 40) (Number.ofZ 50).
Definition fullMeter : MeterDto.t :=
  MeterDto.mk "meter-1" "device-1" (Number.ofZ 50) (Number.ofZ 50).

End Fixture.

(** ** Further notions and samples *)

(** Whether an event is a console warning. *)
Definition is_warning (e : event) : bool :=
  match e with
  | ConsoleWarn _ _ => true
  | _ => false
  end.

(** The meter reading with consumption and maximum exchanged. *)
Definition exchanged (m : MeterDto.t) : MeterDto.t :=
  MeterDto.mk (MeterDto.sensorId m) (MeterDto.deviceId m)
              (MeterDto.maximumPowerConsumption m)
              (MeterDto.powerConsumption m).

(** What a thrown value is when [createMovingMotion] is handed something
    that is no object. *)
Definition non_object_failure (v : value) : exn :=
  match v with
  | VUndefined | VNull => TypeError
  | _ => ThrowString "UnknownDataType"
  end.

Module Cases.

Definition backwardReading : MotionDto :=
  MovingMotionDto Fixture.base (VNumber (Number.ofZ (-5))).
Definition nanReading : MotionDto :=
  MovingMotionDto Fixture.base (VNumber S754_nan).
Definition infiniteReading : MotionDto :=
  MovingMotionDto Fixture.base (VNumber (S754_infinity false)).

(** A history store with no record for any device. *)
Definition emptyHistory : Collaborators := {|
  lastMovingRecord := fun _ => Abrupt (Rejected (VString "no record"));
  lastStaticRecord := fun _ => Abrupt (Rejected (VString "no record"));
  dbClient_create := Fixture.stamp
|}.

(** A state holding the reading [m] with an invalid [Date]. *)
Definition state_undated (m : MotionDto) : state :=
  mkState (<[1%positive := OPlain (props_of m)]>
             (<[2%positive := ODate None]> ∅))
          [].

(** A state holding, at reference 1, an object shaped like a reading but
    tagged 'paused'. *)
Definition state_paused (ms : Z) : state :=
  mkState (<[1%positive := OPlain (base_props Fixture.base "paused")]>
             (<[2%positive := ODate (Some ms)]> ∅))
          [].

End Cases.

(** A reading passes both validations exactly when it is a moving reading
    whose speed is a finite number above zero. *)
Definition positive_moving (m : MotionDto) : Prop :=
  exists b n q,
    m = MovingMotionDto b (VNumber n) /\ Number.toQ n = Some q /\ (0 < q)%Q.

(** What a run of a rule may have added to the trace: nothing, one lookup,
    or one lookup and then one warning. *)
Definition lookup_then_warning (new : list event) : Prop :=
  new = [] \/
  exists f, is_fetch f = true /\
            (new = [f] \/ exists w, is_warning w = true /\ new = [f; w]).

(** What a run of the overconsumption rule may have added to the trace:
    nothing, or two warnings, and then it returned normally. *)
Definition nothing_or_two_warnings (c : completion unit) (new : list event)
  : Prop :=
  new = [] \/
  exists w1 w2,
    is_warning w1 = true /\ is_warning w2 = true /\
    c = Normal tt /\ new = [w1; w2].

(** * Properties *)

(** ** The order of binary64 numbers *)

Section NumberFacts.
Import Number NumberOrder.

Lemma digits2_pos_bounds (m : positive) :
  (2 ^ (Z.pos (digits2_pos m) - 1) <= Z.pos m < 2 ^ Z.pos (digits2_pos m))%Z.
Proof.
  induction m as [m IH | m IH |]; simpl digits2_pos;
    [rewrite Pos2Z.inj_succ .. | simpl; lia];
    set (d := Z.pos (digits2_pos m)) in *;
    replace (Z.succ d - 1)%Z with (Z.succ (d - 1)) by lia;
    rewrite !Z.pow_succ_r by lia; lia.
Qed.

Lemma two_pow_pos (e : Z) : (0 < Qpower 2 e)%Q.
Proof. apply Qpower_0_lt. reflexivity. Qed.

Lemma mag_pos m e : (0 < mag m e)%Q.
Proof.
  unfold mag. apply Qmult_lt_0_compat; [| apply two_pow_pos].
  change 0%Q with (inject_Z 0). rewrite <- Zlt_Qlt. lia.
Qed.

Lemma mag_shift m e e0 :
  (e0 <= e)%Z ->
  (mag m e == inject_Z (Z.pos m * 2 ^ (e - e0)) * Qpower 2 e0)%Q.
Proof.
  intros He. unfold mag.
  replace e with (e0 + (e - e0))%Z at 1 by lia.
  rewrite Qpower_plus by discriminate.
  rewrite inject_Z_mult, Zpower_Qpower by lia.
  change (inject_Z 2) with (2%Q). ring.
Qed.

Lemma mag_compare m1 e1 m2 e2 e0 :
  (e0 <= e1)%Z -> (e0 <= e2)%Z ->
  (mag m1 e1 ?= mag m2 e2)%Q =
  (Z.pos m1 * 2 ^ (e1 - e0) ?= Z.pos m2 * 2 ^ (e2 - e0))%Z.
Proof.
  intros H1 H2.
  rewrite (Qcompare_comp _ _ (mag_shift m1 e1 e0 H1)
                         _ _ (mag_shift m2 e2 e0 H2)).
  pose proof (two_pow_pos e0) as Hp.
  set (z1 := (Z.pos m1 * 2 ^ (e1 - e0))%Z).
  set (z2 := (Z.pos m2 * 2 ^ (e2 - e0))%Z).
  destruct (Z.compare_spec z1 z2) as [E|E|E].
  - rewrite E. apply Qeq_alt. reflexivity.
  - apply Qlt_alt. apply Qmult_lt_r; [exact Hp|]. rewrite <- Zlt_Qlt. exact E.
  - apply Qgt_alt. apply Qmult_lt_r; [exact Hp|]. rewrite <- Zlt_Qlt. exact E.
Qed.

Lemma canonical_facts m e :
  canonical_mantissa Number.prec Number.emax m e = true ->
  (Z.pos (digits2_pos m) <= 53)%Z /\
  ((-1074 <= e)%Z) /\ ((-1074 < e)%Z -> Z.pos (digits2_pos m) = 53%Z).
Proof.
  unfold canonical_mantissa, fexp, emin, Number.prec, Number.emax.
  intros H. apply Z.eqb_eq in H. lia.
Qed.

Lemma mag_lt_exp m1 e1 m2 e2 :
  canonical_mantissa Number.prec Number.emax m1 e1 = true ->
  canonical_mantissa Number.prec Number.emax m2 e2 = true ->
  (e1 < e2)%Z -> (mag m1 e1 ?= mag m2 e2)%Q = Lt.
Proof.
  intros C1 C2 He.
  apply canonical_facts in C1 as (D1 & L1 & _).
  apply canonical_facts in C2 as (_ & _ & D2).
  rewrite (mag_compare m1 e1 m2 e2 e1) by lia.
  rewrite Z.sub_diag, Z.mul_1_r. apply Z.compare_lt_iff.
  pose proof (digits2_pos_bounds m1) as [_ B1].
  pose proof (digits2_pos_bounds m2) as [B2 _].
  rewrite D2 in B2 by lia.
  assert (U1 : (Z.pos m1 < 2 ^ 53)%Z).
  { eapply Z.lt_le_trans; [exact B1|]. apply Z.pow_le_mono_r; lia. }
  assert (G : (2 ^ 1 <= 2 ^ (e2 - e1))%Z) by (apply Z.pow_le_mono_r; lia).
  change (2 ^ (53 - 1))%Z with 4503599627370496%Z in B2.
  change (2 ^ 53)%Z with 9007199254740992%Z in U1.
  change (2 ^ 1)%Z with 2%Z in G.
  nia.
Qed.

Lemma mag_compare_canonical m1 e1 m2 e2 :
  canonical_mantissa Number.prec Number.emax m1 e1 = true ->
  canonical_mantissa Number.prec Number.emax m2 e2 = true ->
  (mag m1 e1 ?= mag m2 e2)%Q =
  match (e1 ?= e2)%Z with
  | Lt => Lt
  | Gt => Gt
  | Eq => Pos.compare_cont Eq m1 m2
  end.
Proof.
  intros C1 C2.
  destruct (Z.compare_spec e1 e2) as [E|E|E].
  - subst e2. rewrite (mag_compare m1 e1 m2 e1 e1) by lia.
    rewrite Z.sub_diag, !Z.mul_1_r. reflexivity.
  - apply mag_lt_exp; assumption.
  - rewrite <- Qcompare_antisym, (mag_lt_exp m2 e2 m1 e1) by assumption.
    reflexivity.
Qed.

Lemma Qcompare_opp (p q : Q) : (- p ?= - q)%Q = CompOpp (p ?= q)%Q.
Proof.
  destruct (Qcompare_spec p q) as [E|E|E]; simpl.
  - apply Qeq_alt. rewrite E. reflexivity.
  - apply Qgt_alt. apply Qopp_lt_compat. exact E.
  - apply Qlt_alt. apply Qopp_lt_compat. exact E.
Qed.

Lemma Qcompare_neg_pos (p q : Q) :
  (0 < p)%Q -> (0 < q)%Q -> (- p ?= q)%Q = Lt.
Proof.
  intros Hp Hq. apply Qlt_alt.
  apply Qlt_trans with 0%Q; [|exact Hq].
  change 0%Q with (- 0)%Q. apply Qopp_lt_compat. exact Hp.
Qed.

Lemma Qcompare_pos_neg (p q : Q) :
  (0 < p)%Q -> (0 < q)%Q -> (p ?= - q)%Q = Gt.
Proof.
  intros Hp Hq. rewrite <- Qcompare_antisym, Qcompare_neg_pos by assumption.
  reflexivity.
Qed.

Lemma ereal_lt_compare (a b : ereal) : ereal_lt a b <-> ecompare a b = Lt.
Proof.
  destruct a, b; simpl;
    try (split; [tauto || discriminate | tauto || discriminate]);
    try (split; [reflexivity | exact (fun _ => I)]).
Qed.

Lemma SFcompare_denote (x y : number) :
  valid x -> valid y ->
  SFcompare x y =
  match denote x, denote y with
  | Some a, Some b => Some (ecompare a b)
  | _, _ => None
  end.
Proof.
  unfold valid.
  destruct x as [sx | sx | | sx mx ex], y as [sy | sy | | sy my ey];
    simpl; intros Vx Vy; try reflexivity;
    try (destruct sx; reflexivity); try (destruct sy; reflexivity);
    try (destruct sx, sy; reflexivity).
  - f_equal. fold (mag my ey). pose proof (mag_pos my ey) as Hp.
    destruct sy; symmetry.
    + apply Qgt_alt. change 0%Q with (- 0)%Q. apply Qopp_lt_compat.
      exact Hp.
    + apply Qlt_alt. exact Hp.
  - f_equal. fold (mag mx ex). pose proof (mag_pos mx ex) as Hp.
    destruct sx; symmetry.
    + apply Qlt_alt. change 0%Q with (- 0)%Q. apply Qopp_lt_compat.
      exact Hp.
    + apply Qgt_alt. exact Hp.
  - f_equal. fold (mag mx ex) (mag my ey).
    unfold bounded in Vx, Vy.
    apply andb_prop in Vx as [Cx _]. apply andb_prop in Vy as [Cy _].
    pose proof (mag_pos mx ex) as Hx. pose proof (mag_pos my ey) as Hy.
    destruct sx, sy.
    + rewrite Qcompare_opp, (mag_compare_canonical _ _ _ _ Cx Cy).
      destruct (ex ?= ey)%Z; reflexivity.
    + rewrite Qcompare_neg_pos by assumption. reflexivity.
    + rewrite Qcompare_pos_neg by assumption. reflexivity.
    + rewrite (mag_compare_canonical _ _ _ _ Cx Cy). reflexivity.
Qed.

Lemma gt_correct (x y : number) :
  valid x -> valid y -> (Number.gt x y = true <-> greater x y).
Proof.
  intros Vx Vy. unfold Number.gt, SFltb, greater.
  rewrite (SFcompare_denote y x Vy Vx).
  destruct (denote x) as [a|], (denote y) as [b|];
    try (split; [discriminate | tauto]).
  rewrite ereal_lt_compare.
  destruct (ecompare b a); split; congruence.
Qed.

End NumberFacts.

(** ** The deep copy allocates, and returns only what it allocated *)

Section CloneFacts.

Lemma alloc_spec (o : object) (h h' : heap) (l : loc) :
  alloc o h = (l, h') -> h !! l = None /\ h' = <[l := o]> h.
Proof.
  unfold alloc. intros [= <- <-]. split; [|reflexivity].
  apply not_elem_of_dom, is_fresh.
Qed.

Lemma reach_primitive (h : heap) (v : value) (l : loc) :
  is_primitive v = true -> ~ reach h v l.
Proof. intros Hp Hr. destruct Hr; discriminate. Qed.

Lemma reach_stable (h h' : heap) (v : value) (l : loc) :
  h ⊆ h' ->
  (forall x, reach h v x -> x ∈ dom h) ->
  reach h' v l -> reach h v l.
Proof.
  intros Hsub Hcl Hr. induction Hr as [ l0 | l0 ps k v l' Hl Hin Hr IH ].
  - constructor.
  - assert (Hh : h !! l0 = Some (OPlain ps)).
    { pose proof (Hcl l0 (reach_here h l0)) as Hd.
      apply elem_of_dom in Hd as [o Ho].
      pose proof (lookup_weaken _ _ _ _ Ho Hsub) as Ho'. congruence. }
    eapply reach_prop; [exact Hh | exact Hin |].
    apply IH. intros x Hx. apply Hcl. eapply reach_prop; eauto.
Qed.

Lemma clone_props_sound f :
  clone_sound f ->
  forall props h props' h',
    clone_props f props h = Some (props', h') ->
    h ⊆ h' /\
    (forall k v' l, In (k, v') props' -> reach h' v' l ->
                    l ∈ dom h' /\ l ∉ dom h) /\
    Forall2 (fun p p' => p.1 = p'.1 /\ same_kind p.2 p'.2) props props'.
Proof.
  intros Hf props.
  induction props as [| [k v] rest IH]; intros h props' h' Hc.
  - injection Hc as <- <-. split; [reflexivity|]. split; [|constructor].
    intros k v' l [].
  - simpl in Hc.
    destruct (f v h) as [[v1 h1]|] eqn:Ev; [|discriminate].
    destruct (clone_props f rest h1) as [[rest' h2]|] eqn:Er;
      [|discriminate].
    injection Hc as <- <-.
    destruct (Hf _ _ _ _ Ev) as (S1 & R1 & K1).
    destruct (IH _ _ _ Er) as (S2 & R2 & F2).
    split; [etransitivity; eassumption|]. split.
    + intros k0 v0 l [[= <- <-] | Hin] Hr.
      * assert (Hr1 : reach h1 v1 l).
        { eapply reach_stable; [exact S2 | | exact Hr].
          intros x Hx. apply (R1 x Hx). }
        destruct (R1 l Hr1) as [D1 N1]. split; [|exact N1].
        eapply (subseteq_dom _ _ S2), D1.
      * destruct (R2 _ _ _ Hin Hr) as [D2 N2]. split; [exact D2|].
        intros Hd. apply N2. eapply (subseteq_dom _ _ S1), Hd.
    + constructor; [split; [reflexivity | exact K1] | exact F2].
Qed.

Lemma clone_primitive (n : nat) (v : value) (h : heap) :
  is_primitive v = true -> clone n v h = Some (v, h).
Proof. destruct v, n; simpl; intros; discriminate || reflexivity. Qed.

Lemma clone_sound_primitive (n : nat) (v : value) (h : heap) v' h' :
  is_primitive v = true ->
  clone n v h = Some (v', h') ->
  h ⊆ h' /\
  (forall l, reach h' v' l -> l ∈ dom h' /\ l ∉ dom h) /\
  same_kind v v'.
Proof.
  intros Hp Hc. rewrite (clone_primitive n v h Hp) in Hc.
  injection Hc as <- <-. split; [reflexivity|]. split.
  - intros l Hr. destruct (reach_primitive _ _ _ Hp Hr).
  - destruct v; simpl; reflexivity || discriminate.
Qed.

Lemma clone_ref (n : nat) (l : loc) (h : heap) :
  clone (S n) (VRef l) h =
  match h !! l with
  | Some (ODate tv) =>
      let '(l', h') := alloc (ODate tv) h in Some (VRef l', h')
  | Some (OPlain props) =>
      match clone_props (clone n) props h with
      | Some (props', h1) =>
          let '(l', h2) := alloc (OPlain props') h1 in Some (VRef l', h2)
      | None => None
      end
  | None => None
  end.
Proof. reflexivity. Qed.

Lemma clone_sound_fuel (n : nat) : clone_sound (clone n).
Proof.
  induction n as [| n IH]; intros v h v' h' Hc.
  - destruct (is_primitive v) eqn:Hp.
    + eapply clone_sound_primitive; eassumption.
    + destruct v; discriminate.
  - destruct (is_primitive v) eqn:Hp.
    { eapply clone_sound_primitive; eassumption. }
    destruct v; try discriminate. rewrite clone_ref in Hc.
    destruct (h !! l) as [[props | tv]|] eqn:El; [| |discriminate].
    + destruct (clone_props (clone n) props h) as [[props' h1]|] eqn:Ep;
        [|discriminate].
      destruct (alloc (OPlain props') h1) as [l' h2] eqn:Ea.
      injection Hc as <- <-.
      apply alloc_spec in Ea as [Hfresh ->].
      destruct (clone_props_sound _ IH _ _ _ _ Ep) as (S1 & R1 & _).
      assert (S2 : h1 ⊆ <[l' := OPlain props']> h1)
        by (apply insert_subseteq; exact Hfresh).
      split; [etransitivity; eassumption|].
      split; [|simpl; eexists; reflexivity].
      intros x Hr. inversion Hr as [| ? props0 k v0 ? Hl Hin Hr0]; subst.
      * split; [apply elem_of_dom; rewrite lookup_insert_eq; eauto|].
        intros Hd. apply (subseteq_dom _ _ S1) in Hd.
        apply not_elem_of_dom in Hfresh. contradiction.
      * rewrite lookup_insert_eq in Hl. injection Hl as <-.
        assert (Hr1 : reach h1 v0 x).
        { eapply reach_stable; [exact S2 | | exact Hr0].
          intros y Hy. apply (R1 _ _ _ Hin Hy). }
        destruct (R1 _ _ _ Hin Hr1) as [D N]. split; [|exact N].
        eapply (subseteq_dom _ _ S2), D.
    + destruct (alloc (ODate tv) h) as [l' h2] eqn:Ea.
      injection Hc as <- <-.
      apply alloc_spec in Ea as [Hfresh ->].
      split; [apply insert_subseteq; exact Hfresh|].
      split; [|simpl; eexists; reflexivity].
      intros x Hr. inversion Hr as [| ? props0 k v0 ? Hl Hin Hr0]; subst.
      * split; [apply elem_of_dom; rewrite lookup_insert_eq; eauto|].
        apply not_elem_of_dom. exact Hfresh.
      * rewrite lookup_insert_eq in Hl. discriminate.
Qed.

End CloneFacts.

(** ** Running the effects *)

Section EffectFacts.

Lemma bind_normal {A B} (m : M A) (k : A -> M B) (s : state) (a : A)
    (s' : state) :
  m s = (Normal a, s') -> bind m k s = k a s'.
Proof. unfold bind. intros ->. reflexivity. Qed.

Lemma bind_abrupt {A B} (m : M A) (k : A -> M B) (s : state) (e : exn)
    (s' : state) :
  m s = (Abrupt e, s') -> bind m k s = (Abrupt e, s').
Proof. unfold bind. intros ->. reflexivity. Qed.

Lemma bind_emit {B} (ev : event) (k : unit -> M B) (s : state) :
  bind (emit ev) k s = k tt (mkState (st_heap s) (st_trace s ++ [ev])).
Proof. reflexivity. Qed.

Lemma get_own_absent (props : list (string * value)) (k : string) :
  (forall v, ~ In (k, v) props) -> get_own props k = VUndefined.
Proof.
  induction props as [| [k' v'] rest IH]; intros Habs; [reflexivity|].
  simpl. destruct (String.eqb k' k) eqn:E.
  - apply String.eqb_eq in E. subst k'. destruct (Habs v'). left. reflexivity.
  - apply IH. intros v Hin. apply (Habs v). right. exact Hin.
Qed.

Lemma get_own_In (props : list (string * value)) (k : string) :
  get_own props k = VUndefined \/ exists k', In (k', get_own props k) props.
Proof.
  induction props as [| [k' v'] rest IH]; simpl; [left; reflexivity|].
  destruct (String.eqb k' k).
  - right. exists k'. left. reflexivity.
  - destruct IH as [-> | [k1 Hin]]; [left; reflexivity|].
    right. exists k1. right. exact Hin.
Qed.

Lemma set_own_In (props : list (string * value)) (k : string) (v : value)
    (k0 : string) (v0 : value) :
  In (k0, v0) (set_own props k v) -> v0 = v \/ In (k0, v0) props.
Proof.
  induction props as [| [k' v'] rest IH]; simpl.
  - intros [[= _ <-] | []]. left. reflexivity.
  - destruct (String.eqb k' k).
    + intros [[= <- <-] | Hin]; [left; reflexivity | right; right; exact Hin].
    + intros [[= <- <-] | Hin]; [right; left; reflexivity|].
      destruct (IH Hin) as [-> | Hin'];
        [left; reflexivity | right; right; exact Hin'].
Qed.

Lemma get_prop_plain (s : state) (l : loc) (props : list (string * value))
    (k : string) :
  st_heap s !! l = Some (OPlain props) ->
  get_prop (VRef l) k s = (Normal (get_own props k), s).
Proof. intros Hl. unfold get_prop. rewrite Hl. reflexivity. Qed.

Lemma get_prop_state (o : value) (k : string) (s : state) :
  (get_prop o k s).2 = s.
Proof.
  unfold get_prop. destruct o; try reflexivity.
  destruct (st_heap s !! l) as [[|]|]; reflexivity.
Qed.

End EffectFacts.

(** ** The classifier *)

Section Classifier.
Import NumberOrder.

Lemma greater_irrefl (x y : number) : equal x y -> ~ greater x y.
Proof.
  unfold equal, greater.
  destruct (denote x) as [a|], (denote y) as [b|]; try tauto.
  intros E L. apply ereal_lt_compare in L.
  destruct a, b; simpl in *; try discriminate.
  rewrite <- Qcompare_antisym, E in L. discriminate.
Qed.

(** C8.  [isPowerConsumptionHigh] is a function from meter readings to
    booleans, so it returns on every reading and touches neither the heap
    nor the console.  On well-formed numbers it returns [true] exactly when
    the power consumption is greater than the maximum, as quantities; in
    particular it returns [false] when the two are the same quantity. *)
Theorem isPowerConsumptionHigh_iff_greater (m : MeterDto.t) :
  valid (MeterDto.powerConsumption m) ->
  valid (MeterDto.maximumPowerConsumption m) ->
  (isPowerConsumptionHigh m = true <->
   greater (MeterDto.powerConsumption m) (MeterDto.maximumPowerConsumption m))
  /\ (equal (MeterDto.powerConsumption m)
            (MeterDto.maximumPowerConsumption m) ->
      isPowerConsumptionHigh m = false).
Proof.
  intros Vp Vm. pose proof (gt_correct _ _ Vp Vm) as G.
  split; [exact G|].
  intros E. apply not_true_is_false. intros T.
  apply G in T. exact (greater_irrefl _ _ E T).
Qed.

Lemma isPowerConsumptionHigh_iff_greater_witness :
  isPowerConsumptionHigh Fixture.highMeter = true /\
  isPowerConsumptionHigh Fixture.fullMeter = false.
Proof.
  assert (V100 : valid (MeterDto.powerConsumption Fixture.highMeter))
    by reflexivity.
  assert (V50 : valid (MeterDto.maximumPowerConsumption Fixture.highMeter))
    by reflexivity.
  split.
  - apply (isPowerConsumptionHigh_iff_greater Fixture.highMeter V100 V50).
    vm_compute. reflexivity.
  - apply (isPowerConsumptionHigh_iff_greater Fixture.fullMeter V50 V50).
    vm_compute. reflexivity.
Defined.

End Classifier.

(** ** The validators *)

Section Validators.

(** What [assertNotZeroOrNegative] does, by the shape of the value. *)
Lemma assertNotZeroOrNegative_cases (v : value) (s : state) :
  assertNotZeroOrNegative v s =
  match v with
  | VNumber (S754_finite false _ _) => (Normal tt, s)
  | VNumber (S754_finite true _ _) | VNumber (S754_zero _) =>
      (Abrupt (ThrowString "NotZeroOrNegative"), s)
  | _ => (Abrupt (ThrowString "UnknownDataType"), s)
  end.
Proof.
  destruct v as [ | | b | [sg | sg | | sg m e] | str | l]; try reflexivity.
  destruct sg; reflexivity.
Qed.

Lemma assertNotZeroOrNegative_state (speed : value) (s : state) :
  (assertNotZeroOrNegative speed s).2 = s.
Proof.
  rewrite assertNotZeroOrNegative_cases.
  destruct speed as [ | | | [ | | | [|] ] | | ]; reflexivity.
Qed.

Lemma toQ_sign (sg : bool) (m : positive) (e : Z) (q : Q) :
  Number.toQ (S754_finite sg m e) = Some q ->
  if sg then (q < 0)%Q else (0 < q)%Q.
Proof.
  simpl. intros [= <-]. pose proof (mag_pos m e) as Hp. destruct sg.
  - change 0%Q with (- 0)%Q. apply Qopp_lt_compat. exact Hp.
  - exact Hp.
Qed.

(** C2.  [assertNotZeroOrNegative] returns normally exactly on the finite
    numbers greater than zero; it throws 'UnknownDataType' exactly on the
    values that are no finite number (another type, a missing value, NaN,
    an infinity), and 'NotZeroOrNegative' exactly on the finite numbers
    that are zero or negative.  The type is checked first: minus infinity,
    which is below zero, is reported as of unknown type.  The two thrown
    values differ, and the state is left as it was. *)
Theorem assertNotZeroOrNegative_outcomes (v : value) (s : state) :
  ((exists n q, v = VNumber n /\ Number.toQ n = Some q /\ (0 < q)%Q) <->
   assertNotZeroOrNegative v s = (Normal tt, s))
  /\ ((forall n, v = VNumber n -> Number.toQ n = None) <->
      assertNotZeroOrNegative v s =
      (Abrupt (ThrowString "UnknownDataType"), s))
  /\ ((exists n q, v = VNumber n /\ Number.toQ n = Some q /\ (q <= 0)%Q) <->
      assertNotZeroOrNegative v s =
      (Abrupt (ThrowString "NotZeroOrNegative"), s))
  /\ assertNotZeroOrNegative (VNumber (S754_infinity true)) s =
     (Abrupt (ThrowString "UnknownDataType"), s)
  /\ ThrowString "UnknownDataType" <> ThrowString "NotZeroOrNegative".
Proof.
  rewrite !assertNotZeroOrNegative_cases.
  split; [|split; [|split; [|split; [reflexivity | discriminate]]]].
  - split.
    + intros (n & q & -> & Hq & Hpos).
      destruct n as [sg | sg | | sg m e]; simpl in Hq; try discriminate.
      * injection Hq as <-. discriminate.
      * pose proof (toQ_sign sg m e q Hq) as Hs. destruct sg; [|reflexivity].
        exfalso. exact (Qlt_irrefl 0 (Qlt_trans _ _ _ Hpos Hs)).
    + destruct v as [ | | b | [sg | sg | | [|] m e] | str | l];
        try discriminate.
      intros _. eexists _, _. split; [reflexivity|]. split; [reflexivity|].
      apply mag_pos.
  - split.
    + intros Hnone.
      destruct v as [ | | b | [sg | sg | | sg m e] | str | l];
        try reflexivity; specialize (Hnone _ eq_refl); discriminate.
    + destruct v as [ | | b | [sg | sg | | [|] m e] | str | l];
        try discriminate; intros _ n [= <-]; reflexivity || discriminate.
  - split.
    + intros (n & q & -> & Hq & Hle).
      destruct n as [sg | sg | | sg m e]; simpl in Hq; try discriminate.
      * reflexivity.
      * pose proof (toQ_sign sg m e q Hq) as Hs. destruct sg; [reflexivity|].
        exfalso. exact (Qlt_irrefl 0 (Qlt_le_trans _ _ _ Hs Hle)).
    + destruct v as [ | | b | [sg | sg | | [|] m e] | str | l];
        try discriminate;
        intros _; eexists _, _; (split; [reflexivity|]);
        (split; [reflexivity|]).
      * apply Qle_refl.
      * apply Qlt_le_weak. exact (toQ_sign true m e _ eq_refl).
Qed.

End Validators.

Lemma assertNotZeroOrNegative_outcomes_witness :
  assertNotZeroOrNegative (VNumber Fixture.five)
    (Fixture.state_with Fixture.movingReading 0) =
  (Normal tt, Fixture.state_with Fixture.movingReading 0).
Proof.
  apply (assertNotZeroOrNegative_outcomes (VNumber Fixture.five)
           (Fixture.state_with Fixture.movingReading 0)).
  eexists _, _. split; [reflexivity|]. split; [reflexivity|].
  vm_compute. reflexivity.
Defined.

Section MovingAssertion.

Lemma assertIsMoving_plain (s : state) (l : loc)
    (props : list (string * value)) :
  st_heap s !! l = Some (OPlain props) ->
  assertIsMoving (VRef l) s =
  if strict_eq (get_own props "status") (VString "moving")
     && negb (truthy (get_own props "speed"))
  then (Abrupt (ThrowString "NotMoving!"), s)
  else (Normal tt, s).
Proof.
  intros H. unfold assertIsMoving, bind.
  rewrite (get_prop_plain s l props "status" H).
  destruct (strict_eq _ _); [|reflexivity].
  rewrite (get_prop_plain s l props "speed" H).
  destruct (truthy _); reflexivity.
Qed.

Lemma assertIsMoving_state (motionDto : value) (s : state) :
  (assertIsMoving motionDto s).2 = s.
Proof.
  unfold assertIsMoving, bind.
  pose proof (get_prop_state motionDto "status" s) as H1.
  destruct (get_prop motionDto "status" s) as [[status|e] s1]; simpl in H1;
    subst s1; [|reflexivity].
  destruct (strict_eq _ _); [|reflexivity].
  pose proof (get_prop_state motionDto "speed" s) as H2.
  destruct (get_prop motionDto "speed" s) as [[speed|e] s2]; simpl in H2;
    subst s2; [|reflexivity].
  destruct (negb _); reflexivity.
Qed.

(** C3.  On an object tagged 'moving', [assertIsMoving] returns normally,
    leaving the state as it was, when the speed is truthy, and throws
    'NotMoving!' when the speed is zero or the object has no speed property;
    on an object tagged 'static' it checks nothing and returns normally.
    Readings are such objects. *)
Theorem assertIsMoving_outcomes (s : state) (l : loc)
    (props : list (string * value)) :
  st_heap s !! l = Some (OPlain props) ->
  (get_own props "status" = VString "moving" ->
   truthy (get_own props "speed") = true ->
   assertIsMoving (VRef l) s = (Normal tt, s))
  /\ (get_own props "status" = VString "moving" ->
      (exists sg, get_own props "speed" = VNumber (S754_zero sg)) \/
      (forall v, ~ In ("speed", v) props) ->
      assertIsMoving (VRef l) s = (Abrupt (ThrowString "NotMoving!"), s))
  /\ (get_own props "status" = VString "static" ->
      assertIsMoving (VRef l) s = (Normal tt, s)).
Proof.
  intros H. rewrite (assertIsMoving_plain s l props H).
  split; [|split].
  - intros -> ->. reflexivity.
  - intros -> [[sg ->] | Habs]; [reflexivity|].
    rewrite (get_own_absent props "speed" Habs). reflexivity.
  - intros ->. reflexivity.
Qed.

End MovingAssertion.

Lemma assertIsMoving_outcomes_witness :
  assertIsMoving (VRef 1%positive)
    (Fixture.state_with Fixture.movingReading 0) =
  (Normal tt, Fixture.state_with Fixture.movingReading 0)
  /\ assertIsMoving (VRef 1%positive)
       (Fixture.state_with Fixture.stoppedReading 0) =
     (Abrupt (ThrowString "NotMoving!"),
      Fixture.state_with Fixture.stoppedReading 0)
  /\ assertIsMoving (VRef 1%positive)
       (Fixture.state_with Fixture.staticReading 0) =
     (Normal tt, Fixture.state_with Fixture.staticReading 0).
Proof.
  split; [|split].
  - destruct (assertIsMoving_outcomes
                (Fixture.state_with Fixture.movingReading 0) 1%positive
                (props_of Fixture.movingReading) eq_refl) as (A & _ & _).
    apply A; reflexivity.
  - destruct (assertIsMoving_outcomes
                (Fixture.state_with Fixture.stoppedReading 0) 1%positive
                (props_of Fixture.stoppedReading) eq_refl) as (_ & B & _).
    apply B; [reflexivity|]. left. exists false. reflexivity.
  - destruct (assertIsMoving_outcomes
                (Fixture.state_with Fixture.staticReading 0) 1%positive
                (props_of Fixture.staticReading) eq_refl) as (_ & _ & C).
    apply C; reflexivity.
Defined.

(** ** The overconsumption rule *)

Section Overconsumption.

Lemma notify_not_high (motionDto : value) (meterDto : MeterDto.t)
    (s : state) :
  isPowerConsumptionHigh meterDto = false ->
  notifyMeOnMovingHighConsumptionDevice motionDto meterDto s = (Normal tt, s).
Proof.
  unfold notifyMeOnMovingHighConsumptionDevice. intros ->. reflexivity.
Qed.

Lemma notify_propagates (motionDto : value) (meterDto : MeterDto.t)
    (s s' : state) (e : exn) :
  isPowerConsumptionHigh meterDto = true ->
  assertIsMoving motionDto s = (Abrupt e, s') ->
  notifyMeOnMovingHighConsumptionDevice motionDto meterDto s = (Abrupt e, s').
Proof.
  unfold notifyMeOnMovingHighConsumptionDevice. intros -> Ha. simpl.
  apply bind_abrupt. exact Ha.
Qed.

Lemma notify_warns (l : loc) (props : list (string * value))
    (meterDto : MeterDto.t) (s : state) :
  isPowerConsumptionHigh meterDto = true ->
  st_heap s !! l = Some (OPlain props) ->
  assertIsMoving (VRef l) s = (Normal tt, s) ->
  notifyMeOnMovingHighConsumptionDevice (VRef l) meterDto s =
  (Normal tt,
   mkState (st_heap s)
     (st_trace s ++
      [ConsoleWarn high_power_strings [get_own props "deviceId"];
       ConsoleWarn moving_cause_strings
         [get_own props "sensorId"; get_own props "speed"]])).
Proof.
  unfold notifyMeOnMovingHighConsumptionDevice. intros -> Hl Ha. simpl.
  rewrite (bind_normal _ _ _ _ _ Ha).
  rewrite (bind_normal _ _ _ _ _ (get_prop_plain s l props "deviceId" Hl)).
  unfold console_warn. rewrite bind_emit.
  set (s1 := mkState _ _).
  rewrite (bind_normal _ _ _ _ _ (get_prop_plain s1 l props "sensorId" Hl)).
  rewrite (bind_normal _ _ _ _ _ (get_prop_plain s1 l props "speed" Hl)).
  unfold emit, s1. simpl. rewrite <- app_assoc. reflexivity.
Qed.

(** C6.  When the consumption is not high the rule returns at once: the
    state is as it was, whatever the reading, so no assertion ran and
    nothing was thrown.  When it is high, a failure of [assertIsMoving] is
    the outcome of the rule; and when [assertIsMoving] passes, the rule
    returns after exactly two warnings, the first carrying the device id,
    the second the sensor id and the speed of the reading. *)
Theorem notify_outcomes (motionDto : value) (meterDto : MeterDto.t)
    (s : state) :
  (isPowerConsumptionHigh meterDto = false ->
   notifyMeOnMovingHighConsumptionDevice motionDto meterDto s = (Normal tt, s))
  /\ (isPowerConsumptionHigh meterDto = true ->
      forall e s',
        assertIsMoving motionDto s = (Abrupt e, s') ->
        notifyMeOnMovingHighConsumptionDevice motionDto meterDto s =
        (Abrupt e, s'))
  /\ (isPowerConsumptionHigh meterDto = true ->
      forall l props,
        motionDto = VRef l ->
        st_heap s !! l = Some (OPlain props) ->
        assertIsMoving motionDto s = (Normal tt, s) ->
        notifyMeOnMovingHighConsumptionDevice motionDto meterDto s =
        (Normal tt,
         mkState (st_heap s)
           (st_trace s ++
            [ConsoleWarn high_power_strings [get_own props "deviceId"];
             ConsoleWarn moving_cause_strings
               [get_own props "sensorId"; get_own props "speed"]]))).
Proof.
  split; [|split].
  - apply notify_not_high.
  - intros H e s'. apply notify_propagates. exact H.
  - intros H l props -> Hl Ha. apply notify_warns; assumption.
Qed.

(** C10.  On a static reading with high consumption the rule does not
    fail: [assertIsMoving] passes, and both warnings are issued, the second
    carrying [undefined] for the speed the reading does not have. *)
Theorem notify_static_high_consumption (l : loc) (b : Motion.base)
    (meterDto : MeterDto.t) (s : state) :
  st_heap s !! l = Some (OPlain (props_of (StaticMotionDto b))) ->
  isPowerConsumptionHigh meterDto = true ->
  notifyMeOnMovingHighConsumptionDevice (VRef l) meterDto s =
  (Normal tt,
   mkState (st_heap s)
     (st_trace s ++
      [ConsoleWarn high_power_strings [VString (Motion.deviceId b)];
       ConsoleWarn moving_cause_strings
         [VString (Motion.sensorId b); VUndefined]])).
Proof.
  intros Hl Hhigh.
  rewrite (notify_warns l _ meterDto s Hhigh Hl); [reflexivity|].
  rewrite (assertIsMoving_plain s l _ Hl). reflexivity.
Qed.

End Overconsumption.

Lemma notify_outcomes_witness :
  notifyMeOnMovingHighConsumptionDevice (VRef 1%positive) Fixture.lowMeter
    (Fixture.state_with Fixture.staticReading 0) =
    (Normal tt, Fixture.state_with Fixture.staticReading 0)
  /\ notifyMeOnMovingHighConsumptionDevice (VRef 1%positive) Fixture.highMeter
       (Fixture.state_with Fixture.stoppedReading 0) =
     (Abrupt (ThrowString "NotMoving!"),
      Fixture.state_with Fixture.stoppedReading 0)
  /\ notifyMeOnMovingHighConsumptionDevice (VRef 1%positive) Fixture.highMeter
       (Fixture.state_with Fixture.movingReading 0) =
     (Normal tt,
      mkState (st_heap (Fixture.state_with Fixture.movingReading 0))
        [ConsoleWarn high_power_strings [VString "device-1"];
         ConsoleWarn moving_cause_strings
           [VString "sensor-1"; VNumber Fixture.five]]).
Proof.
  split; [|split].
  - destruct (notify_outcomes (VRef 1%positive) Fixture.lowMeter
                (Fixture.state_with Fixture.staticReading 0)) as (A & _ & _).
    apply A. reflexivity.
  - destruct (notify_outcomes (VRef 1%positive) Fixture.highMeter
                (Fixture.state_with Fixture.stoppedReading 0)) as (_ & B & _).
    apply B; reflexivity.
  - destruct (notify_outcomes (VRef 1%positive) Fixture.highMeter
                (Fixture.state_with Fixture.movingReading 0)) as (_ & _ & C).
    apply (C eq_refl 1%positive (props_of Fixture.movingReading));
      reflexivity.
Defined.

Lemma notify_static_high_consumption_witness :
  notifyMeOnMovingHighConsumptionDevice (VRef 1%positive) Fixture.highMeter
    (Fixture.state_with Fixture.staticReading 0) =
  (Normal tt,
   mkState (st_heap (Fixture.state_with Fixture.staticReading 0))
     [ConsoleWarn high_power_strings [VString "device-1"];
      ConsoleWarn moving_cause_strings [VString "sensor-1"; VUndefined]]).
Proof.
  apply (notify_static_high_consumption 1%positive Fixture.base
           Fixture.highMeter (Fixture.state_with Fixture.staticReading 0));
    reflexivity.
Defined.

(** ** The sanitizer *)

Section Sanitizer.
Context {C : Collaborators}.

Lemma subseteq_lookup_dom (h h' : heap) (l : loc) :
  h ⊆ h' -> l ∈ dom h -> h' !! l = h !! l.
Proof.
  intros Hsub Hd. apply elem_of_dom in Hd as [o Ho].
  rewrite Ho. eapply lookup_weaken; eassumption.
Qed.

(** Replacing the properties of a cell by ones whose values are primitives
    or values the cell already had opens no new path. *)
Lemma reach_insert_within (h : heap) (lc : loc)
    (props props' : list (string * value)) (w : value) (x : loc) :
  h !! lc = Some (OPlain props) ->
  (forall k0 v0, In (k0, v0) props' ->
                 is_primitive v0 = true \/ exists k1, In (k1, v0) props) ->
  reach (<[lc := OPlain props']> h) w x -> reach h w x.
Proof.
  intros Hlc Hwithin Hr.
  induction Hr as [ l0 | l0 ps k0 v0 x Hl Hin Hr IH ].
  - constructor.
  - destruct (decide (l0 = lc)) as [-> | Hne].
    + rewrite lookup_insert_eq in Hl. injection Hl as <-.
      destruct (Hwithin _ _ Hin) as [Hp | [k1 Hin1]].
      * destruct (reach_primitive _ _ _ Hp Hr).
      * eapply reach_prop; [exact Hlc | exact Hin1 | exact IH].
    + rewrite lookup_insert_ne in Hl by congruence.
      eapply reach_prop; [exact Hl | exact Hin | exact IH].
Qed.

(** The write of the speed read from the copy back to the copy changes no
    cell that existed before the copy was made, and leaves the copy out of
    reach of those cells. *)
Lemma write_back_stays_fresh (h0 h1 : heap) (t : list event) (c : value)
    (speed : value) (l : loc) :
  h0 ⊆ h1 ->
  (forall x, reach h1 c x -> x ∈ dom h1 /\ x ∉ dom h0) ->
  l ∈ dom h0 ->
  get_prop c "speed" (mkState h1 t) = (Normal speed, mkState h1 t) ->
  exists h3,
    (forall r s3,
        set_prop c "speed" speed (mkState h1 t) = (r, s3) -> st_heap s3 = h3)
    /\ h3 !! l = h0 !! l
    /\ l ∈ dom h3
    /\ (forall x, reach h3 c x -> x ∉ dom h0).
Proof.
  intros S1 R1 Hl Eg.
  assert (E1 : h1 !! l = h0 !! l) by (apply subseteq_lookup_dom; assumption).
  assert (D1 : l ∈ dom h1) by (apply (subseteq_dom _ _ S1); exact Hl).
  assert (F1 : forall x, reach h1 c x -> x ∉ dom h0)
    by (intros x Hx; apply (R1 x Hx)).
  unfold set_prop, get_prop in *.
  destruct c as [ | | b | n | str | lc]; simpl in *;
    try (exists h1; split; [intros r s3 E; inversion E; reflexivity|];
         split; [exact E1|]; split; [exact D1 | exact F1]).
  destruct (h1 !! lc) as [[props | tv]|] eqn:Elc;
    try (exists h1; split; [intros r s3 E; inversion E; reflexivity|];
         split; [exact E1|]; split; [exact D1 | exact F1]).
  injection Eg as <-.
  assert (Hne : lc <> l).
  { intros ->. destruct (R1 l (reach_here _ l)) as [_ Hn]. contradiction. }
  exists (<[lc := OPlain (set_own props "speed" (get_own props "speed"))]> h1).
  split; [intros r s3 E; inversion E; reflexivity|].
  split; [rewrite lookup_insert_ne by exact Hne; exact E1|].
  split.
  - apply elem_of_dom. rewrite lookup_insert_ne by exact Hne.
    rewrite E1. apply elem_of_dom. exact Hl.
  - intros x Hx. apply (R1 x).
    eapply reach_insert_within; [exact Elc | | exact Hx].
    intros k0 v0 Hin. destruct (set_own_In _ _ _ _ _ Hin) as [-> | Hin'].
    + destruct (get_own_In props "speed") as [-> | Hk]; [left; reflexivity|].
      right. exact Hk.
    + right. exists k0. exact Hin'.
Qed.

(** Whatever the input and the outcome, [createMovingMotion] leaves every
    cell that existed before the call as it was. *)
Lemma createMovingMotion_frame (motionDto : value) (s : state) (l : loc) :
  create_keeps_to_its_record ->
  l ∈ dom (st_heap s) ->
  st_heap (MotionRepository.createMovingMotion motionDto s).2 !! l =
  st_heap s !! l.
Proof.
  intros Hframe Hl. unfold MotionRepository.createMovingMotion.
  unfold bind at 1. unfold structuredClone.
  destruct (clone _ motionDto (st_heap s)) as [[c h1]|] eqn:Ec;
    [|reflexivity].
  destruct (clone_sound_fuel _ _ _ _ _ Ec) as (S1 & R1 & _).
  assert (E1 : h1 !! l = st_heap s !! l)
    by (apply subseteq_lookup_dom; assumption).
  set (s1 := mkState h1 (st_trace s)).
  unfold bind at 1.
  pose proof (assertIsMoving_state c s1) as Ha.
  destruct (assertIsMoving c s1) as [[[]|e] sa]; simpl in Ha; subst sa;
    [|exact E1].
  unfold bind at 1.
  pose proof (get_prop_state c "speed" s1) as Hg.
  destruct (get_prop c "speed" s1) as [[speed|e] sg] eqn:Eg; simpl in Hg;
    subst sg; [|exact E1].
  unfold bind at 1.
  pose proof (assertNotZeroOrNegative_state speed s1) as Hn.
  destruct (assertNotZeroOrNegative speed s1) as [[[]|e] sn]; simpl in Hn;
    subst sn; [|exact E1].
  unfold bind at 1. rewrite Eg.
  unfold MotionRepository.sanitizeSpeed.
  destruct (write_back_stays_fresh _ _ _ _ _ _ S1 R1 Hl Eg)
    as (h3 & Hh3 & E3 & D3 & R3).
  unfold bind at 1.
  destruct (set_prop c "speed" speed s1) as [[[]|e] s3] eqn:Es;
    pose proof (Hh3 _ _ Es) as Hs3.
  - unfold dbClient.create. rewrite bind_emit. simpl. rewrite Hs3.
    pose proof (Hframe c h3 l D3) as Hf.
    destruct (dbClient_create c h3) as [r h4]. simpl in *.
    rewrite Hf; [exact E3|]. intros Hr. exact (R3 l Hr Hl).
  - simpl. rewrite Hs3. exact E3.
Qed.

Lemma clone_date (n : nat) (h : heap) (l : loc) (tv : option Z) :
  h !! l = Some (ODate tv) ->
  clone (S n) (VRef l) h =
  Some (VRef (fresh (dom h)), <[fresh (dom h) := ODate tv]> h).
Proof. intros Hl. rewrite clone_ref, Hl. reflexivity. Qed.

Lemma clone_props_reading (n : nat) (h : heap) (m : MotionDto)
    (tv : option Z) :
  h !! Motion.timestamp (base_of m) = Some (ODate tv) ->
  is_primitive (speed_of m) = true ->
  clone_props (clone (S n)) (props_of m) h =
  Some (props_of (with_timestamp m (fresh (dom h))),
        <[fresh (dom h) := ODate tv]> h).
Proof.
  intros Hts Hp.
  destruct m as [b | b speed]; unfold props_of, base_props;
    cbn [clone_props app base_of] in *.
  - rewrite !clone_primitive by reflexivity.
    rewrite (clone_date n h _ tv Hts).
    rewrite !clone_primitive by reflexivity. reflexivity.
  - rewrite !clone_primitive by reflexivity.
    rewrite (clone_date n h _ tv Hts).
    rewrite !clone_primitive by reflexivity.
    rewrite (clone_primitive (S n) speed _ Hp). reflexivity.
Qed.

Lemma size_lookup (h : heap) (l : loc) (o : object) :
  h !! l = Some o -> exists n, size h = S n.
Proof.
  intros Hl. destruct (size h) as [|n] eqn:E; [|eexists; reflexivity].
  apply map_size_empty_inv in E. subst h. rewrite lookup_empty in Hl.
  discriminate.
Qed.

Lemma structuredClone_reading (s : state) (l : loc) (m : MotionDto)
    (tv : option Z) :
  reading_at (st_heap s) l m tv ->
  structuredClone (VRef l) s =
  (Normal (VRef (copy_loc (st_heap s) tv)),
   mkState (reading_copied (st_heap s) m tv) (st_trace s)).
Proof.
  intros (Hl & Hts & Hp). unfold structuredClone.
  destruct (size_lookup _ _ _ Hl) as [n ->].
  rewrite clone_ref, Hl, (clone_props_reading n _ m tv Hts Hp).
  reflexivity.
Qed.

Lemma validate_plain (s : state) (l : loc) (props : list (string * value)) :
  st_heap s !! l = Some (OPlain props) ->
  validate (VRef l) s =
  if strict_eq (get_own props "status") (VString "moving")
     && negb (truthy (get_own props "speed"))
  then (Abrupt (ThrowString "NotMoving!"), s)
  else assertNotZeroOrNegative (get_own props "speed") s.
Proof.
  intros Hl. unfold validate. unfold bind at 1.
  rewrite (assertIsMoving_plain s l props Hl).
  destruct (_ && _); [reflexivity|].
  rewrite (bind_normal _ _ _ _ _ (get_prop_plain s l props "speed" Hl)).
  reflexivity.
Qed.

Lemma validate_state (motionDto : value) (s : state) :
  (validate motionDto s).2 = s.
Proof.
  unfold validate. unfold bind at 1.
  pose proof (assertIsMoving_state motionDto s) as Ha.
  destruct (assertIsMoving motionDto s) as [[[]|e] sa]; simpl in Ha; subst sa;
    [|reflexivity].
  unfold bind.
  pose proof (get_prop_state motionDto "speed" s) as Hg.
  destruct (get_prop motionDto "speed" s) as [[speed|e] sg]; simpl in Hg;
    subst sg; [|reflexivity].
  apply assertNotZeroOrNegative_state.
Qed.

Lemma get_own_copy_status (m : MotionDto) (l : loc) :
  get_own (props_of (with_timestamp m l)) "status" =
  get_own (props_of m) "status".
Proof. destruct m; reflexivity. Qed.

Lemma get_own_copy_speed (m : MotionDto) (l : loc) :
  get_own (props_of (with_timestamp m l)) "speed" =
  get_own (props_of m) "speed".
Proof. destruct m; reflexivity. Qed.

(** The validations decide the same on a reading and on its copy. *)
Lemma validate_copy (s s1 : state) (l l1 l' : loc) (m : MotionDto) :
  st_heap s !! l = Some (OPlain (props_of m)) ->
  st_heap s1 !! l1 = Some (OPlain (props_of (with_timestamp m l'))) ->
  (validate (VRef l1) s1).1 = (validate (VRef l) s).1.
Proof.
  intros Hl Hl1.
  rewrite (validate_plain s l _ Hl), (validate_plain s1 l1 _ Hl1).
  rewrite get_own_copy_status, !get_own_copy_speed.
  destruct (_ && _); [reflexivity|].
  rewrite !assertNotZeroOrNegative_cases.
  destruct (get_own (props_of m) "speed") as [ | | | [ | | | [|] ] | | ];
    reflexivity.
Qed.

(** [createMovingMotion] is the copy, the two validations on the copy, then
    the write and the call of the database client. *)
Lemma createMovingMotion_steps (motionDto : value) (s : state) :
  MotionRepository.createMovingMotion motionDto s =
  match structuredClone motionDto s with
  | (Normal c, s1) =>
      match validate c s1 with
      | (Normal _, s2) =>
          (speed <- get_prop c "speed" ;;
           set_prop c "speed" (MotionRepository.sanitizeSpeed speed) ;;;
           dbClient.create c) s2
      | (Abrupt e, s2) => (Abrupt e, s2)
      end
  | (Abrupt e, s1) => (Abrupt e, s1)
  end.
Proof.
  unfold MotionRepository.createMovingMotion, validate, bind.
  destruct (structuredClone motionDto s) as [[c|e] s1]; [|reflexivity].
  destruct (assertIsMoving c s1) as [[[]|e] s2]; [|reflexivity].
  destruct (get_prop c "speed" s2) as [[speed|e] s3]; [|reflexivity].
  destruct (assertNotZeroOrNegative speed s3) as [[[]|e] s4]; reflexivity.
Qed.

Lemma reading_copied_lookup (h : heap) (m : MotionDto) (tv : option Z) :
  reading_copied h m tv !! copy_loc h tv =
  Some (OPlain (props_of (copy_of h m))).
Proof. unfold reading_copied. apply lookup_insert_eq. Qed.

Lemma createMovingMotion_rejects (s s0 : state) (l : loc) (m : MotionDto)
    (tv : option Z) (e : exn) :
  reading_at (st_heap s) l m tv ->
  validate (VRef l) s = (Abrupt e, s0) ->
  MotionRepository.createMovingMotion (VRef l) s =
  (Abrupt e, mkState (reading_copied (st_heap s) m tv) (st_trace s)).
Proof.
  intros Hr Hv. rewrite createMovingMotion_steps.
  rewrite (structuredClone_reading s l m tv Hr).
  set (s1 := mkState _ _). set (c := copy_loc _ _).
  destruct Hr as (Hl & _ & _).
  pose proof (validate_copy s s1 l c _ m Hl (reading_copied_lookup _ m tv))
    as Hc.
  pose proof (validate_state (VRef c) s1) as Hs.
  rewrite Hv in Hc.
  destruct (validate (VRef c) s1) as [r s2]. simpl in *. subst. reflexivity.
Qed.

Lemma deep_equal_primitive (n : nat) (h h' : heap) (v : value) :
  is_primitive v = true -> deep_equal n h' v h v = true.
Proof.
  destruct v, n; simpl; intros; try discriminate;
    reflexivity || (apply bool_decide_eq_true_2; reflexivity).
Qed.

Lemma deep_equal_ref (n : nat) (h1 h2 : heap) (l1 l2 : loc) :
  deep_equal (S n) h1 (VRef l1) h2 (VRef l2) =
  match h1 !! l1, h2 !! l2 with
  | Some (ODate t1), Some (ODate t2) => bool_decide (t1 = t2)
  | Some (OPlain p1), Some (OPlain p2) =>
      props_equal (fun w1 w2 => deep_equal n h1 w1 h2 w2) p1 p2
  | _, _ => false
  end.
Proof. reflexivity. Qed.

Lemma deep_equal_reading (h h' : heap) (l : loc) (m : MotionDto)
    (tv : option Z) :
  reading_at h l m tv -> reading_at h' l m tv ->
  deep_equal 2 h' (VRef l) h (VRef l) = true.
Proof.
  intros (Hl & Hts & Hp) (Hl' & Hts' & _).
  assert (Hd : deep_equal 1 h' (VRef (Motion.timestamp (base_of m))) h
                 (VRef (Motion.timestamp (base_of m))) = true).
  { rewrite deep_equal_ref, Hts, Hts'. apply bool_decide_eq_true_2.
    reflexivity. }
  rewrite deep_equal_ref, Hl, Hl'.
  destruct m as [b | b speed]; unfold props_of, base_props;
    cbn [props_equal app base_of speed_of] in *;
    rewrite !String.eqb_refl, Hd, !deep_equal_primitive
      by (assumption || reflexivity);
    reflexivity.
Qed.

Lemma createMovingMotion_reading_kept (s : state) (l : loc) (m : MotionDto)
    (tv : option Z) :
  create_keeps_to_its_record ->
  reading_at (st_heap s) l m tv ->
  reading_at (st_heap (MotionRepository.createMovingMotion (VRef l) s).2)
             l m tv.
Proof.
  intros Hframe (Hl & Hts & Hp). split; [|split; [|exact Hp]].
  - rewrite createMovingMotion_frame; [exact Hl | exact Hframe |].
    apply elem_of_dom. eauto.
  - rewrite createMovingMotion_frame; [exact Hts | exact Hframe |].
    apply elem_of_dom. eauto.
Qed.

(** C1.  Let the database client touch nothing but the record it is handed.
    Then for every reading passed to [createMovingMotion], whether the call
    returns or fails, every cell that existed before the call is as it was:
    the copy, the write of the sanitized speed and the client's own writes
    all fall on cells allocated by the call.  So the caller's object is
    still the same reading, and is deeply equal to what it was before the
    call. *)
Theorem createMovingMotion_input_unchanged (s : state) (l : loc)
    (m : MotionDto) (tv : option Z) :
  create_keeps_to_its_record ->
  reading_at (st_heap s) l m tv ->
  let s' := (MotionRepository.createMovingMotion (VRef l) s).2 in
  (forall l0, l0 ∈ dom (st_heap s) -> st_heap s' !! l0 = st_heap s !! l0)
  /\ reading_at (st_heap s') l m tv
  /\ deep_equal 2 (st_heap s') (VRef l) (st_heap s) (VRef l) = true.
Proof.
  intros Hframe Hr s'. split; [|split].
  - intros l0 Hl0. apply createMovingMotion_frame; assumption.
  - apply createMovingMotion_reading_kept; assumption.
  - eapply deep_equal_reading; [exact Hr|].
    apply createMovingMotion_reading_kept; assumption.
Qed.

Lemma get_own_speed (m : MotionDto) :
  get_own (props_of m) "speed" = speed_of m.
Proof. destruct m; reflexivity. Qed.

(** On a reading, the two validations in sequence are [assertIsMoving] on
    the object and then [assertNotZeroOrNegative] on its speed. *)
Lemma validate_reading (s : state) (l : loc) (m : MotionDto) :
  st_heap s !! l = Some (OPlain (props_of m)) ->
  validate (VRef l) s =
  match assertIsMoving (VRef l) s with
  | (Normal _, _) => assertNotZeroOrNegative (speed_of m) s
  | (Abrupt e, s') => (Abrupt e, s')
  end.
Proof.
  intros Hl.
  rewrite (validate_plain s l _ Hl), (assertIsMoving_plain s l _ Hl).
  rewrite get_own_speed. destruct (_ && _); reflexivity.
Qed.

(** When both validations pass, the copy, with its speed written back, is
    handed to the database client, once, and the client's answer is the
    outcome. *)
Lemma createMovingMotion_accepts (s s0 : state) (l : loc) (m : MotionDto)
    (tv : option Z) :
  reading_at (st_heap s) l m tv ->
  validate (VRef l) s = (Normal tt, s0) ->
  MotionRepository.createMovingMotion (VRef l) s =
  let c := copy_loc (st_heap s) tv in
  let h := <[c := OPlain (set_own (props_of (copy_of (st_heap s) m)) "speed"
                                  (speed_of m))]>
             (reading_copied (st_heap s) m tv) in
  let '(r, h') := dbClient_create (VRef c) h in
  (r, mkState h' (st_trace s ++ [DbCreate (VRef c)])).
Proof.
  intros Hr Hv. rewrite createMovingMotion_steps.
  rewrite (structuredClone_reading s l m tv Hr).
  set (s1 := mkState _ _). set (c := copy_loc _ _).
  destruct Hr as (Hl & _ & _).
  pose proof (reading_copied_lookup (st_heap s) m tv) as Hc.
  pose proof (validate_copy s s1 l c _ m Hl Hc) as Hsame.
  pose proof (validate_state (VRef c) s1) as Hs.
  rewrite Hv in Hsame.
  destruct (validate (VRef c) s1) as [r s2]. simpl in Hsame, Hs. subst r s2.
  rewrite (bind_normal _ _ _ _ _ (get_prop_plain s1 c _ "speed" Hc)).
  unfold copy_of at 1. rewrite get_own_copy_speed, get_own_speed.
  unfold MotionRepository.sanitizeSpeed.
  unfold bind at 1. unfold set_prop. fold c in Hc.
  change (st_heap s1 !! c) with (reading_copied (st_heap s) m tv !! c).
  rewrite Hc. unfold dbClient.create. rewrite bind_emit. reflexivity.
Qed.

(** C7.  For every reading on which [assertIsMoving] fails, and for every
    reading on which [assertIsMoving] passes and [assertNotZeroOrNegative]
    fails on the speed, that failure is the outcome of
    [createMovingMotion]; and whenever [assertNotZeroOrNegative] fails on
    the speed the call fails.  In each case the trace is as it was before
    the call: the database client was not called. *)
Theorem createMovingMotion_validates_before_persisting (s : state)
    (l : loc) (m : MotionDto) (tv : option Z) :
  reading_at (st_heap s) l m tv ->
  (forall e s0,
      assertIsMoving (VRef l) s = (Abrupt e, s0) ->
      exists s',
        MotionRepository.createMovingMotion (VRef l) s = (Abrupt e, s') /\
        st_trace s' = st_trace s)
  /\ (forall e s0,
         assertIsMoving (VRef l) s = (Normal tt, s) ->
         assertNotZeroOrNegative (speed_of m) s = (Abrupt e, s0) ->
         exists s',
           MotionRepository.createMovingMotion (VRef l) s = (Abrupt e, s') /\
           st_trace s' = st_trace s)
  /\ (forall e s0,
         assertNotZeroOrNegative (speed_of m) s = (Abrupt e, s0) ->
         exists e' s',
           MotionRepository.createMovingMotion (VRef l) s = (Abrupt e', s') /\
           st_trace s' = st_trace s).
Proof.
  intros Hr. pose proof Hr as (Hl & _ & _).
  pose proof (validate_reading s l m Hl) as Hv.
  assert (Hfirst : forall e s0,
             assertIsMoving (VRef l) s = (Abrupt e, s0) ->
             exists s',
               MotionRepository.createMovingMotion (VRef l) s =
               (Abrupt e, s') /\ st_trace s' = st_trace s).
  { intros e s0 Ha. rewrite Ha in Hv. eexists.
    split; [eapply createMovingMotion_rejects; eassumption | reflexivity]. }
  assert (Hsecond : forall e s0,
             assertIsMoving (VRef l) s = (Normal tt, s) ->
             assertNotZeroOrNegative (speed_of m) s = (Abrupt e, s0) ->
             exists s',
               MotionRepository.createMovingMotion (VRef l) s =
               (Abrupt e, s') /\ st_trace s' = st_trace s).
  { intros e s0 Ha Hn. rewrite Ha, Hn in Hv. eexists.
    split; [eapply createMovingMotion_rejects; eassumption | reflexivity]. }
  split; [exact Hfirst|]. split; [exact Hsecond|].
  intros e s0 Hn.
  pose proof (assertIsMoving_state (VRef l) s) as Hs.
  destruct (assertIsMoving (VRef l) s) as [[[]|e1] s1] eqn:Ha;
    simpl in Hs; subst s1.
  - exists e. eapply Hsecond; [reflexivity | exact Hn].
  - exists e1. eapply Hfirst. reflexivity.
Qed.

(** C9.  For every static reading [createMovingMotion] fails with
    'UnknownDataType': on the copy, [assertIsMoving] passes, for the tag is
    'static', and the speed read is [undefined], which
    [assertNotZeroOrNegative] rejects as of unknown type.  The state the
    call leaves has the copy allocated and the trace as it was, so nothing
    was persisted. *)
Theorem createMovingMotion_static_unknown_data_type (s : state) (l : loc)
    (b : Motion.base) (tv : option Z) :
  reading_at (st_heap s) l (StaticMotionDto b) tv ->
  let c := VRef (copy_loc (st_heap s) tv) in
  let s1 := mkState (reading_copied (st_heap s) (StaticMotionDto b) tv)
                    (st_trace s) in
  structuredClone (VRef l) s = (Normal c, s1)
  /\ assertIsMoving c s1 = (Normal tt, s1)
  /\ get_prop c "speed" s1 = (Normal VUndefined, s1)
  /\ assertNotZeroOrNegative VUndefined s1 =
     (Abrupt (ThrowString "UnknownDataType"), s1)
  /\ MotionRepository.createMovingMotion (VRef l) s =
     (Abrupt (ThrowString "UnknownDataType"), s1)
  /\ st_trace s1 = st_trace s.
Proof.
  intros Hr c s1. pose proof Hr as (Hl & _ & _).
  pose proof (reading_copied_lookup (st_heap s) (StaticMotionDto b) tv) as Hc.
  unfold c.
  split; [exact (structuredClone_reading s l _ tv Hr)|].
  split; [rewrite (assertIsMoving_plain s1 _ _ Hc); reflexivity|].
  split; [rewrite (get_prop_plain s1 _ _ "speed" Hc); reflexivity|].
  split; [reflexivity|]. split; [|reflexivity].
  eapply (createMovingMotion_rejects s s); [exact Hr|].
  rewrite (validate_plain s l _ Hl). reflexivity.
Qed.

End Sanitizer.

Lemma stamp_keeps_to_its_record :
  @create_keeps_to_its_record Fixture.collaborators.
Proof.
  intros record h l _ Hfar. simpl. unfold Fixture.stamp.
  destruct record as [ | | | | | l0]; try reflexivity.
  destruct (h !! l0) as [[props | tv]|]; try reflexivity.
  simpl. apply lookup_insert_ne. intros ->. apply Hfar. constructor.
Qed.

Lemma reading_at_fixture (m : MotionDto) (ms : Z) :
  is_primitive (speed_of m) = true ->
  Motion.timestamp (base_of m) = 2%positive ->
  reading_at (st_heap (Fixture.state_with m ms)) 1%positive m (Some ms).
Proof.
  intros Hp Hts. split; [reflexivity|]. split; [|exact Hp].
  rewrite Hts. reflexivity.
Qed.

Lemma createMovingMotion_input_unchanged_witness :
  deep_equal 2
    (st_heap (@MotionRepository.createMovingMotion Fixture.collaborators
                (VRef 1%positive)
                (Fixture.state_with Fixture.movingReading 0)).2)
    (VRef 1%positive)
    (st_heap (Fixture.state_with Fixture.movingReading 0))
    (VRef 1%positive) = true.
Proof.
  apply (@createMovingMotion_input_unchanged Fixture.collaborators
           (Fixture.state_with Fixture.movingReading 0) 1%positive
           Fixture.movingReading (Some 0%Z) stamp_keeps_to_its_record).
  apply reading_at_fixture; reflexivity.
Defined.

Lemma createMovingMotion_validates_before_persisting_witness :
  exists s',
    @MotionRepository.createMovingMotion Fixture.collaborators
      (VRef 1%positive) (Fixture.state_with Fixture.stoppedReading 0) =
    (Abrupt (ThrowString "NotMoving!"), s') /\
    st_trace s' = [].
Proof.
  assert (R : reading_at
                (st_heap (Fixture.state_with Fixture.stoppedReading 0))
                1%positive Fixture.stoppedReading (Some 0%Z))
    by (apply reading_at_fixture; reflexivity).
  destruct (@createMovingMotion_validates_before_persisting
              Fixture.collaborators _ _ _ _ R) as (A & _).
  apply (A (ThrowString "NotMoving!")
           (Fixture.state_with Fixture.stoppedReading 0)).
  reflexivity.
Defined.

Lemma createMovingMotion_static_unknown_data_type_witness :
  (@MotionRepository.createMovingMotion Fixture.collaborators
     (VRef 1%positive) (Fixture.state_with Fixture.staticReading 0)).1 =
  Abrupt (ThrowString "UnknownDataType").
Proof.
  assert (R : reading_at
                (st_heap (Fixture.state_with Fixture.staticReading 0))
                1%positive (StaticMotionDto Fixture.base) (Some 0%Z))
    by (apply reading_at_fixture; reflexivity).
  destruct (@createMovingMotion_static_unknown_data_type
              Fixture.collaborators _ _ _ _ R) as (_ & _ & _ & _ & E & _).
  rewrite E. reflexivity.
Defined.

(** ** The sensitivity rule *)

Section Sensitivity.
Context {L : Luxon} {P : Host} {C : Collaborators}.
Import NumberOrder.

Lemma toISOString_date (s : state) (l : loc) (tv : option Z) :
  st_heap s !! l = Some (ODate tv) ->
  toISOString formatISO (VRef l) s =
  match tv with
  | Some ms => (Normal (formatISO ms), s)
  | None => (Abrupt RangeError, s)
  end.
Proof.
  intros Hl. unfold toISOString. rewrite Hl. destruct tv; reflexivity.
Qed.

Lemma isStatic_plain (s : state) (l : loc) (props : list (string * value)) :
  st_heap s !! l = Some (OPlain props) ->
  isStatic (VRef l) s =
  (Normal (strict_eq (get_own props "status") (VString "static")), s).
Proof.
  intros Hl. unfold isStatic.
  rewrite (bind_normal _ _ _ _ _ (get_prop_plain s l props "status" Hl)).
  reflexivity.
Qed.

Lemma isStatic_reading (s : state) (l : loc) (m : MotionDto) :
  st_heap s !! l = Some (OPlain (props_of m)) ->
  isStatic (VRef l) s =
  (Normal match m with
          | StaticMotionDto _ => true
          | MovingMotionDto _ _ => false
          end, s).
Proof.
  intros Hl. rewrite (isStatic_plain s l _ Hl). destruct m; reflexivity.
Qed.

(** The part of the run both branches share, from the record the lookup
    resolved with to the end. *)
Ltac rule_tail s1 l b tv record Hl Hts :=
  rewrite (bind_normal _ _ _ _ _ (get_prop_plain s1 l _ "timestamp" Hl));
  change (get_own _ "timestamp") with (VRef (Motion.timestamp b));
  unfold bind at 1; rewrite (toISOString_date s1 _ tv Hts);
  destruct tv as [ms|]; [|reflexivity];
  fold (elapsed_hours ms record);
  destruct (Number.gt _ _); [|reflexivity];
  unfold bind, console_warn, emit;
  rewrite (get_prop_plain s1 l _ "deviceId" Hl);
  unfold s1; simpl; rewrite <- app_assoc; reflexivity.

(** The whole run of the rule on a reading. *)
Lemma sanityCheckSensitivity_run (s : state) (l : loc) (m : MotionDto)
    (tv : option Z) :
  reading_at (st_heap s) l m tv ->
  sanityCheckSensitivity (VRef l) s =
  let s1 := mkState (st_heap s) (st_trace s ++ [opposite_fetch m]) in
  match opposite_record m with
  | Abrupt e => (Abrupt e, s1)
  | Normal record =>
      match tv with
      | None => (Abrupt RangeError, s1)
      | Some ms =>
          if Number.gt (elapsed_hours ms record) Number.twelve
          then (Normal tt,
                mkState (st_heap s)
                  (st_trace s ++ [opposite_fetch m; sensitivity_warning m]))
          else (Normal tt, s1)
      end
  end.
Proof.
  intros (Hl & Hts & _). unfold sanityCheckSensitivity.
  rewrite (bind_normal _ _ _ _ _ (isStatic_reading s l m Hl)).
  destruct m as [b | b speed];
    cbn [base_of opposite_record opposite_fetch sensitivity_warning] in *;
    rewrite (bind_normal _ _ _ _ _ (get_prop_plain s l _ "deviceId" Hl));
    match goal with
    | |- context [get_own (props_of ?m) "deviceId"] =>
        change (get_own (props_of m) "deviceId") with (device_of m)
    end.
  - unfold motionRepository.getLastMovingRecord.
    unfold bind at 1. rewrite bind_emit. unfold await.
    set (s1 := mkState _ _).
    destruct (lastMovingRecord _) as [record | e]; [|reflexivity].
    rule_tail s1 l b tv record Hl Hts.
  - unfold motionRepository.getLastStaticRecord.
    unfold bind at 1. rewrite bind_emit. unfold await.
    set (s1 := mkState _ _).
    destruct (lastStaticRecord _) as [record | e]; [|reflexivity].
    rule_tail s1 l b tv record Hl Hts.
Qed.

Lemma twelve_valid : valid Number.twelve.
Proof. reflexivity. Qed.

Lemma not_greater_twelve_of_equal (h : number) :
  equal h Number.twelve -> ~ greater h Number.twelve.
Proof. apply greater_irrefl. Qed.

Lemma not_greater_twelve_of_negative (h : number) :
  greater Number.zero h -> ~ greater h Number.twelve.
Proof.
  unfold greater. simpl (denote Number.zero). simpl (denote Number.twelve).
  destruct (denote h) as [[ | q | ]|]; simpl; try tauto.
  intros Hneg Hbig.
  pose proof (mag_pos 6755399441055744 (-49)) as Hpos.
  exact (Qlt_irrefl q (Qlt_trans _ _ _ Hneg (Qlt_trans _ _ _ Hpos Hbig))).
Qed.

(** C4.  Take a reading with a valid date whose lookup of the opposite
    record resolves, and let the date library report a well-formed number
    of hours elapsed from that record to the reading.  The warning is
    issued exactly when that number is greater than 12, as a quantity; when
    it is not, the lookup is all that happened.  In particular nothing is
    warned at exactly 12 hours, nor when the number is negative, that is
    when the reading precedes the record. *)
Theorem sanityCheckSensitivity_threshold_is_strict (s : state) (l : loc)
    (m : MotionDto) (ms : Z) (record : HistoricalRecord) :
  reading_at (st_heap s) l m (Some ms) ->
  opposite_record m = Normal record ->
  valid (elapsed_hours ms record) ->
  let hours := elapsed_hours ms record in
  let trace' := st_trace (sanityCheckSensitivity (VRef l) s).2 in
  let warned := st_trace s ++ [opposite_fetch m; sensitivity_warning m] in
  let silent := st_trace s ++ [opposite_fetch m] in
  (greater hours Number.twelve <-> trace' = warned)
  /\ (~ greater hours Number.twelve <-> trace' = silent)
  /\ (equal hours Number.twelve -> trace' = silent)
  /\ (greater Number.zero hours -> trace' = silent).
Proof.
  intros Hr Hrec Hvalid hours trace' warned silent.
  assert (Hrun : trace' =
                 if Number.gt hours Number.twelve then warned else silent).
  { unfold trace'. rewrite (sanityCheckSensitivity_run s l m _ Hr), Hrec.
    cbv zeta. fold hours.
    destruct (Number.gt hours Number.twelve); reflexivity. }
  pose proof (gt_correct hours Number.twelve Hvalid twelve_valid) as Hgt.
  assert (Hdiff : warned <> silent).
  { unfold warned, silent. intros E. apply app_inv_head in E. discriminate. }
  assert (Hsilent : ~ greater hours Number.twelve -> trace' = silent).
  { intros Hn. rewrite Hrun.
    destruct (Number.gt hours Number.twelve); [|reflexivity].
    destruct Hn. apply Hgt. reflexivity. }
  split; [|split; [|split]].
  - rewrite Hrun. split.
    + intros Hg. apply Hgt in Hg. rewrite Hg. reflexivity.
    + destruct (Number.gt hours Number.twelve);
        [intros _; apply Hgt; reflexivity|].
      intros E. destruct Hdiff. symmetry. exact E.
  - split; [exact Hsilent|].
    rewrite Hrun. intros E Hg. apply Hgt in Hg. rewrite Hg in E.
    exact (Hdiff E).
  - intros He. apply Hsilent. apply not_greater_twelve_of_equal. exact He.
  - intros Hn. apply Hsilent. apply not_greater_twelve_of_negative. exact Hn.
Qed.

(** C5.  On every reading the rule makes exactly one lookup in the history
    store, and it is the lookup of the opposite state for the reading's
    device: the last moving record for a static reading, the last static
    record for a moving one.  When that lookup resolves, the reading's date
    is valid and the hours elapsed are more than 12, the rule returns after
    one warning carrying the device: too low for a static reading, too
    high for a moving one. *)
Theorem sanityCheckSensitivity_opposite_record (s : state) (l : loc)
    (m : MotionDto) (tv : option Z) :
  reading_at (st_heap s) l m tv ->
  let trace' := st_trace (sanityCheckSensitivity (VRef l) s).2 in
  (exists rest,
      trace' = st_trace s ++ opposite_fetch m :: rest /\
      Forall (fun ev => is_fetch ev = false) rest)
  /\ (forall ms record,
         tv = Some ms ->
         opposite_record m = Normal record ->
         valid (elapsed_hours ms record) ->
         greater (elapsed_hours ms record) Number.twelve ->
         sanityCheckSensitivity (VRef l) s =
         (Normal tt,
          mkState (st_heap s)
            (st_trace s ++ [opposite_fetch m; sensitivity_warning m]))).
Proof.
  intros Hr trace'. split.
  - unfold trace'. rewrite (sanityCheckSensitivity_run s l m tv Hr). cbv zeta.
    destruct (opposite_record m) as [record | e];
      [|exists []; split; [reflexivity | constructor]].
    destruct tv as [ms|]; [|exists []; split; [reflexivity | constructor]].
    destruct (Number.gt _ _).
    + exists [sensitivity_warning m]. split; [reflexivity|].
      constructor; [destruct m; reflexivity | constructor].
    + exists []. split; [reflexivity | constructor].
  - intros ms record -> Hrec Hvalid Hg.
    rewrite (sanityCheckSensitivity_run s l m _ Hr), Hrec. cbv zeta.
    apply (gt_correct _ _ Hvalid twelve_valid) in Hg. rewrite Hg. reflexivity.
Qed.

End Sensitivity.

Lemma sanityCheckSensitivity_threshold_is_strict_witness :
  st_trace (@sanityCheckSensitivity Fixture.luxon Fixture.host
              Fixture.collaborators (VRef 1%positive)
              (Fixture.state_with Fixture.staticReading 46800000)).2 =
  [GetLastMovingRecord (VString "device-1");
   ConsoleWarn too_low_strings [VString "device-1"]]
  /\ st_trace (@sanityCheckSensitivity Fixture.luxon Fixture.host
                 Fixture.collaborators (VRef 1%positive)
                 (Fixture.state_with Fixture.staticReading 43200000)).2 =
     [GetLastMovingRecord (VString "device-1")]
  /\ st_trace (@sanityCheckSensitivity Fixture.luxon Fixture.host
                 Fixture.lateHistory (VRef 1%positive)
                 (Fixture.state_with Fixture.movingReading 0)).2 =
     [GetLastStaticRecord (VString "device-1")].
Proof.
  split; [|split].
  - assert (R : reading_at
                  (st_heap (Fixture.state_with Fixture.staticReading 46800000))
                  1%positive Fixture.staticReading (Some 46800000%Z))
      by (apply reading_at_fixture; reflexivity).
    assert (V : NumberOrder.valid
                  (@elapsed_hours Fixture.luxon Fixture.host 46800000
                     Fixture.hour0))
      by (vm_compute; reflexivity).
    destruct (@sanityCheckSensitivity_threshold_is_strict
                Fixture.luxon Fixture.host Fixture.collaborators
                _ _ _ _ Fixture.hour0 R eq_refl V) as (A & _).
    apply (proj1 A). vm_compute. reflexivity.
  - assert (R : reading_at
                  (st_heap (Fixture.state_with Fixture.staticReading 43200000))
                  1%positive Fixture.staticReading (Some 43200000%Z))
      by (apply reading_at_fixture; reflexivity).
    assert (V : NumberOrder.valid
                  (@elapsed_hours Fixture.luxon Fixture.host 43200000
                     Fixture.hour0))
      by (vm_compute; reflexivity).
    destruct (@sanityCheckSensitivity_threshold_is_strict
                Fixture.luxon Fixture.host Fixture.collaborators
                _ _ _ _ Fixture.hour0 R eq_refl V) as (_ & _ & B & _).
    apply B. vm_compute. reflexivity.
  - assert (R : reading_at
                  (st_heap (Fixture.state_with Fixture.movingReading 0))
                  1%positive Fixture.movingReading (Some 0%Z))
      by (apply reading_at_fixture; reflexivity).
    assert (V : NumberOrder.valid
                  (@elapsed_hours Fixture.luxon Fixture.host 0
                     Fixture.hour13))
      by (vm_compute; reflexivity).
    destruct (@sanityCheckSensitivity_threshold_is_strict
                Fixture.luxon Fixture.host Fixture.lateHistory
                _ _ _ _ Fixture.hour13 R eq_refl V) as (_ & _ & _ & D).
    apply D. vm_compute. reflexivity.
Defined.

Lemma sanityCheckSensitivity_opposite_record_witness :
  @sanityCheckSensitivity Fixture.luxon Fixture.host Fixture.collaborators
    (VRef 1%positive) (Fixture.state_with Fixture.movingReading 46800000) =
  (Normal tt,
   mkState (st_heap (Fixture.state_with Fixture.movingReading 46800000))
     [GetLastStaticRecord (VString "device-1");
      ConsoleWarn too_high_strings [VString "device-1"]]).
Proof.
  destruct (@sanityCheckSensitivity_opposite_record
              Fixture.luxon Fixture.host Fixture.collaborators
              (Fixture.state_with Fixture.movingReading 46800000)
              1%positive Fixture.movingReading (Some 46800000%Z))
    as (_ & B); [apply reading_at_fixture; reflexivity|].
  apply (B 46800000%Z Fixture.hour0);
    [reflexivity | reflexivity | vm_compute; reflexivity
    | vm_compute; reflexivity].
Defined.

(** * Further properties *)

(** ** The outcomes of the sanitizer *)

Section SanitizerOutcomes.
Context {C : Collaborators}.

Lemma positive_shape (n : number) (q : Q) :
  Number.toQ n = Some q -> (0 < q)%Q -> exists m e, n = S754_finite false m e.
Proof.
  intros Hq Hpos. destruct n as [sg | sg | | sg m e]; try discriminate.
  - injection Hq as <-. discriminate.
  - pose proof (toQ_sign sg m e q Hq) as Hs. destruct sg; [|eauto].
    exfalso. exact (Qlt_irrefl 0 (Qlt_trans _ _ _ Hpos Hs)).
Qed.

Lemma negative_shape (n : number) (q : Q) :
  Number.toQ n = Some q -> (q < 0)%Q -> exists m e, n = S754_finite true m e.
Proof.
  intros Hq Hneg. destruct n as [sg | sg | | sg m e]; try discriminate.
  - injection Hq as <-. discriminate.
  - pose proof (toQ_sign sg m e q Hq) as Hs. destruct sg; [eauto|].
    exfalso. exact (Qlt_irrefl 0 (Qlt_trans _ _ _ Hs Hneg)).
Qed.

(** What the two validations answer on a moving reading, by its speed. *)
Lemma validate_moving (s : state) (l : loc) (b : Motion.base)
    (speed : value) :
  st_heap s !! l = Some (OPlain (props_of (MovingMotionDto b speed))) ->
  validate (VRef l) s =
  if truthy speed then assertNotZeroOrNegative speed s
  else (Abrupt (ThrowString "NotMoving!"), s).
Proof.
  intros Hl. rewrite (validate_plain s l _ Hl), get_own_speed.
  change (get_own _ "status") with (VString "moving").
  cbn [speed_of]. change (strict_eq _ _) with true.
  destruct (truthy speed); reflexivity.
Qed.

Lemma set_own_speed_moving (b : Motion.base) (speed : value) :
  set_own (props_of (MovingMotionDto b speed)) "speed" speed =
  props_of (MovingMotionDto b speed).
Proof. reflexivity. Qed.

(** A moving reading with a finite speed above zero is copied and the copy
    handed to the database client, whose answer is the outcome. *)
Lemma createMovingMotion_persists (s : state) (l : loc) (b : Motion.base)
    (n : number) (q : Q) (tv : option Z) :
  let m := MovingMotionDto b (VNumber n) in
  reading_at (st_heap s) l m tv ->
  Number.toQ n = Some q -> (0 < q)%Q ->
  MotionRepository.createMovingMotion (VRef l) s =
  let c := VRef (copy_loc (st_heap s) tv) in
  let '(r, h') := dbClient_create c (reading_copied (st_heap s) m tv) in
  (r, mkState h' (st_trace s ++ [DbCreate c])).
Proof.
  intros m Hr Hq Hpos. pose proof Hr as (Hl & _ & _).
  destruct (positive_shape n q Hq Hpos) as (mant & e & ->).
  rewrite (createMovingMotion_accepts s s l m tv Hr).
  - cbv zeta. unfold copy_of, m. cbn [with_timestamp speed_of].
    rewrite set_own_speed_moving. unfold reading_copied at 1.
    unfold copy_of. cbn [with_timestamp]. rewrite insert_insert_eq.
    reflexivity.
  - unfold m. rewrite (validate_moving s l b _ Hl). reflexivity.
Qed.

(** X1.  On a moving reading the outcome of [createMovingMotion] is decided
    by the speed.  A falsy speed (zero, NaN, a missing value) fails with
    'NotMoving!'; a truthy speed that is no finite number fails with
    'UnknownDataType'; a finite speed below zero fails with
    'NotZeroOrNegative'; in these three cases the trace is as it was, and
    the heap has gained the copy only.  A finite speed above zero has the
    copy handed to the database client: the call is added to the trace, and
    the client's answer is the outcome. *)
Theorem createMovingMotion_moving_outcomes (s : state) (l : loc)
    (b : Motion.base) (speed : value) (tv : option Z) :
  let m := MovingMotionDto b speed in
  let copied :=
    mkState (reading_copied (st_heap s) m tv) (st_trace s) in
  reading_at (st_heap s) l m tv ->
  (truthy speed = false ->
   MotionRepository.createMovingMotion (VRef l) s =
   (Abrupt (ThrowString "NotMoving!"), copied))
  /\ (truthy speed = true -> isNumber speed = false ->
      MotionRepository.createMovingMotion (VRef l) s =
      (Abrupt (ThrowString "UnknownDataType"), copied))
  /\ (forall n q,
         speed = VNumber n -> Number.toQ n = Some q -> (q < 0)%Q ->
         MotionRepository.createMovingMotion (VRef l) s =
         (Abrupt (ThrowString "NotZeroOrNegative"), copied))
  /\ (forall n q,
         speed = VNumber n -> Number.toQ n = Some q -> (0 < q)%Q ->
         MotionRepository.createMovingMotion (VRef l) s =
         let c := VRef (copy_loc (st_heap s) tv) in
         let '(r, h') :=
           dbClient_create c (reading_copied (st_heap s) m tv) in
         (r, mkState h' (st_trace s ++ [DbCreate c]))).
Proof.
  intros m copied Hr. pose proof Hr as (Hl & _ & _).
  pose proof (validate_moving s l b speed Hl) as Hv.
  split; [|split; [|split]].
  - intros Hf. rewrite Hf in Hv.
    exact (createMovingMotion_rejects s s l m tv _ Hr Hv).
  - intros Ht Hn. rewrite Ht in Hv.
    apply (createMovingMotion_rejects s s l m tv _ Hr). rewrite Hv.
    unfold assertNotZeroOrNegative. rewrite Hn. reflexivity.
  - intros n q -> Hq Hneg.
    destruct (negative_shape n q Hq Hneg) as (mant & e & ->).
    apply (createMovingMotion_rejects s s l m tv _ Hr). rewrite Hv.
    reflexivity.
  - intros n q -> Hq Hpos.
    exact (createMovingMotion_persists s l b n q tv Hr Hq Hpos).
Qed.

End SanitizerOutcomes.

Lemma createMovingMotion_moving_outcomes_witness :
  (@MotionRepository.createMovingMotion Fixture.collaborators
     (VRef 1%positive) (Fixture.state_with Cases.nanReading 0)).1 =
  Abrupt (ThrowString "NotMoving!")
  /\ (@MotionRepository.createMovingMotion Fixture.collaborators
        (VRef 1%positive) (Fixture.state_with Cases.infiniteReading 0)).1 =
     Abrupt (ThrowString "UnknownDataType")
  /\ (@MotionRepository.createMovingMotion Fixture.collaborators
        (VRef 1%positive) (Fixture.state_with Cases.backwardReading 0)).1 =
     Abrupt (ThrowString "NotZeroOrNegative").
Proof.
  split; [|split].
  - assert (R : reading_at
                  (st_heap (Fixture.state_with Cases.nanReading 0))
                  1%positive Cases.nanReading (Some 0%Z))
      by (apply reading_at_fixture; reflexivity).
    destruct (@createMovingMotion_moving_outcomes Fixture.collaborators
                _ _ _ _ _ R) as (A & _).
    rewrite (A eq_refl). reflexivity.
  - assert (R : reading_at
                  (st_heap (Fixture.state_with Cases.infiniteReading 0))
                  1%positive Cases.infiniteReading (Some 0%Z))
      by (apply reading_at_fixture; reflexivity).
    destruct (@createMovingMotion_moving_outcomes Fixture.collaborators
                _ _ _ _ _ R) as (_ & B & _).
    rewrite (B eq_refl eq_refl). reflexivity.
  - assert (R : reading_at
                  (st_heap (Fixture.state_with Cases.backwardReading 0))
                  1%positive Cases.backwardReading (Some 0%Z))
      by (apply reading_at_fixture; reflexivity).
    destruct (@createMovingMotion_moving_outcomes Fixture.collaborators
                _ _ _ _ _ R) as (_ & _ & D & _).
    assert (Hneg : (- Number.mag 5629499534213120 (-50) < 0)%Q)
      by (vm_compute; reflexivity).
    rewrite (D (Number.ofZ (-5)) _ eq_refl eq_refl Hneg). reflexivity.
Defined.

(** ** What the sanitizer persists *)

Section SanitizerCopy.
Context {C : Collaborators}.

Lemma validate_not_positive (s : state) (l : loc) (m : MotionDto) :
  st_heap s !! l = Some (OPlain (props_of m)) ->
  ~ positive_moving m ->
  exists e, validate (VRef l) s = (Abrupt e, s).
Proof.
  intros Hl Hnot. destruct m as [b | b speed].
  - rewrite (validate_plain s l _ Hl). eexists. reflexivity.
  - rewrite (validate_moving s l b speed Hl).
    destruct (truthy speed); [|eexists; reflexivity].
    rewrite assertNotZeroOrNegative_cases.
    destruct speed as [ | | | [sg | sg | | [|] mant e] | | ];
      try (eexists; reflexivity).
    destruct Hnot. exists b, (S754_finite false mant e), (Number.mag mant e).
    split; [reflexivity|]. split; [reflexivity | apply mag_pos].
Qed.

Lemma positive_moving_dec (m : MotionDto) :
  positive_moving m \/ ~ positive_moving m.
Proof.
  destruct m as [b | b speed];
    [right; intros (b' & n & q & E & _); discriminate|].
  destruct speed as [ | | | [sg | sg | | [|] mant e] | | ];
    try (right; intros (b' & n & q & E & Hq & Hpos); injection E as <- <-;
         destruct (positive_shape _ _ Hq Hpos) as (m' & e' & E');
         discriminate);
    try (right; intros (b' & n & q & E & _); discriminate).
  left. exists b, (S754_finite false mant e), (Number.mag mant e).
  split; [reflexivity|]. split; [reflexivity | apply mag_pos].
Qed.

Lemma app_one_ne {A} (l : list A) (x : A) : l ++ [x] <> l.
Proof.
  intros E. rewrite <- (app_nil_r l) in E at 2.
  apply app_inv_head in E. discriminate.
Qed.

(** X2.  On a reading, [createMovingMotion] calls the database client
    exactly when the reading is a moving one whose speed is a finite number
    above zero: then one call, carrying the copy, is what the trace gained;
    on every other reading the trace is as it was. *)
Theorem createMovingMotion_persists_iff (s : state) (l : loc)
    (m : MotionDto) (tv : option Z) :
  reading_at (st_heap s) l m tv ->
  let trace' :=
    st_trace (MotionRepository.createMovingMotion (VRef l) s).2 in
  let call := DbCreate (VRef (copy_loc (st_heap s) tv)) in
  (positive_moving m <-> trace' = st_trace s ++ [call])
  /\ (~ positive_moving m <-> trace' = st_trace s).
Proof.
  intros Hr trace' call. pose proof Hr as (Hl & _ & _).
  assert (Hyes : positive_moving m -> trace' = st_trace s ++ [call]).
  { intros (b & n & q & -> & Hq & Hpos). unfold trace'.
    rewrite (createMovingMotion_persists s l b n q tv Hr Hq Hpos).
    cbv zeta. destruct (dbClient_create _ _) as [r h']. reflexivity. }
  assert (Hno : ~ positive_moving m -> trace' = st_trace s).
  { intros Hnot. destruct (validate_not_positive s l m Hl Hnot) as [e Hv].
    unfold trace'.
    rewrite (createMovingMotion_rejects s s l m tv e Hr Hv). reflexivity. }
  destruct (positive_moving_dec m) as [Hp | Hn].
  - pose proof (Hyes Hp) as E. split; split; try assumption.
    + intros _. exact Hp.
    + intros E' _. rewrite E in E'. exact (app_one_ne _ _ E').
  - pose proof (Hno Hn) as E. split; split; try assumption.
    + intros E'. rewrite E in E'. symmetry in E'.
      destruct (app_one_ne _ _ E').
    + intros _. exact Hn.
Qed.

Lemma deep_equal_copy (h h' : heap) (l l' ts' : loc) (m : MotionDto)
    (tv : option Z) :
  reading_at h l m tv -> reading_at h' l' (with_timestamp m ts') tv ->
  deep_equal 2 h' (VRef l') h (VRef l) = true.
Proof.
  intros (Hl & Hts & Hp) (Hl' & Hts' & _).
  assert (Hd : deep_equal 1 h' (VRef ts') h
                 (VRef (Motion.timestamp (base_of m))) = true).
  { rewrite deep_equal_ref, Hts.
    replace (h' !! ts') with (Some (ODate tv))
      by (rewrite <- Hts'; destruct m; reflexivity).
    apply bool_decide_eq_true_2. reflexivity. }
  rewrite deep_equal_ref, Hl, Hl'.
  destruct m as [b | b speed]; unfold props_of, base_props;
    cbn [props_equal app base_of speed_of with_timestamp
         Motion.sensorId Motion.deviceId Motion.timestamp
         Motion.sensitivity] in *;
    rewrite !String.eqb_refl, Hd, !deep_equal_primitive
      by (assumption || reflexivity);
    reflexivity.
Qed.

Lemma copy_loc_fresh (h : heap) (tv : option Z) :
  copy_loc h tv <> fresh (dom h) /\ (copy_loc h tv ∉ dom h)
  /\ (fresh (dom h) ∉ dom h).
Proof.
  pose proof (is_fresh (dom (date_copied h tv))) as Hc.
  fold (copy_loc h tv) in Hc. unfold date_copied in Hc.
  rewrite dom_insert_L in Hc.
  split; [intros E; apply Hc; rewrite E; set_solver|].
  split; [set_solver | apply is_fresh].
Qed.

Lemma reading_copied_is_reading (h : heap) (m : MotionDto) (tv : option Z) :
  is_primitive (speed_of m) = true ->
  reading_at (reading_copied h m tv) (copy_loc h tv) (copy_of h m) tv.
Proof.
  intros Hp. destruct (copy_loc_fresh h tv) as (Hne & _ & _).
  split; [apply reading_copied_lookup|]. split.
  - replace (Motion.timestamp (base_of (copy_of h m))) with (fresh (dom h))
      by (destruct m; reflexivity).
    unfold reading_copied, date_copied.
    rewrite lookup_insert_ne by exact Hne. apply lookup_insert_eq.
  - destruct m; exact Hp.
Qed.

Lemma clone_of_reading (s : state) (l : loc) (m : MotionDto)
    (tv : option Z) :
  reading_at (st_heap s) l m tv ->
  clone (S (size (st_heap s))) (VRef l) (st_heap s) =
  Some (VRef (copy_loc (st_heap s) tv), reading_copied (st_heap s) m tv).
Proof.
  intros Hr. pose proof (structuredClone_reading s l m tv Hr) as E.
  unfold structuredClone in E.
  destruct (clone _ _ _) as [[v h]|]; [|discriminate].
  injection E as -> ->. reflexivity.
Qed.

(** X3.  What [createMovingMotion] hands to the database client for an
    accepted reading is a reading in its own right, deeply equal to the
    caller's, and private to the call: no cell reachable from it existed
    before the call, and every cell that did holds what it held. *)
Theorem createMovingMotion_hands_over_a_private_copy (s : state) (l : loc)
    (b : Motion.base) (n : number) (q : Q) (tv : option Z) :
  let m := MovingMotionDto b (VNumber n) in
  let h := reading_copied (st_heap s) m tv in
  let c := copy_loc (st_heap s) tv in
  reading_at (st_heap s) l m tv ->
  Number.toQ n = Some q -> (0 < q)%Q ->
  MotionRepository.createMovingMotion (VRef l) s =
  (let '(r, h') := dbClient_create (VRef c) h in
   (r, mkState h' (st_trace s ++ [DbCreate (VRef c)])))
  /\ reading_at h c (copy_of (st_heap s) m) tv
  /\ deep_equal 2 h (VRef c) (st_heap s) (VRef l) = true
  /\ (forall x, reach h (VRef c) x -> x ∉ dom (st_heap s))
  /\ (forall l0, l0 ∈ dom (st_heap s) -> h !! l0 = st_heap s !! l0).
Proof.
  intros m h c Hr Hq Hpos.
  pose proof (reading_copied_is_reading (st_heap s) m tv eq_refl) as Hcopy.
  destruct (clone_sound_fuel _ _ _ _ _ (clone_of_reading s l m tv Hr))
    as (Hsub & Hreach & _).
  split; [exact (createMovingMotion_persists s l b n q tv Hr Hq Hpos)|].
  split; [exact Hcopy|]. split; [|split].
  - exact (deep_equal_copy _ _ _ _ _ m tv Hr Hcopy).
  - intros x Hx. apply (Hreach x Hx).
  - intros l0 Hl0. apply subseteq_lookup_dom; assumption.
Qed.

End SanitizerCopy.

Lemma createMovingMotion_persists_iff_witness :
  st_trace (@MotionRepository.createMovingMotion Fixture.collaborators
              (VRef 1%positive)
              (Fixture.state_with Fixture.movingReading 0)).2 =
  [DbCreate (VRef 4%positive)]
  /\ st_trace (@MotionRepository.createMovingMotion Fixture.collaborators
                 (VRef 1%positive)
                 (Fixture.state_with Fixture.staticReading 0)).2 = [].
Proof.
  split.
  - assert (R : reading_at
                  (st_heap (Fixture.state_with Fixture.movingReading 0))
                  1%positive Fixture.movingReading (Some 0%Z))
      by (apply reading_at_fixture; reflexivity).
    destruct (@createMovingMotion_persists_iff Fixture.collaborators
                _ _ _ _ R) as (A & _).
    apply (proj1 A).
    exists Fixture.base, Fixture.five, (Number.mag 5629499534213120 (-50)).
    split; [reflexivity|]. split; [reflexivity | apply mag_pos].
  - assert (R : reading_at
                  (st_heap (Fixture.state_with Fixture.staticReading 0))
                  1%positive Fixture.staticReading (Some 0%Z))
      by (apply reading_at_fixture; reflexivity).
    destruct (@createMovingMotion_persists_iff Fixture.collaborators
                _ _ _ _ R) as (_ & B).
    apply (proj1 B). intros (b & n & q & E & _). discriminate.
Defined.

Lemma createMovingMotion_hands_over_a_private_copy_witness :
  deep_equal 2
    (reading_copied (st_heap (Fixture.state_with Fixture.movingReading 0))
                    Fixture.movingReading (Some 0%Z))
    (VRef (copy_loc (st_heap (Fixture.state_with Fixture.movingReading 0))
                    (Some 0%Z)))
    (st_heap (Fixture.state_with Fixture.movingReading 0))
    (VRef 1%positive) = true.
Proof.
  assert (R : reading_at
                (st_heap (Fixture.state_with Fixture.movingReading 0))
                1%positive Fixture.movingReading (Some 0%Z))
    by (apply reading_at_fixture; reflexivity).
  destruct (@createMovingMotion_hands_over_a_private_copy
              Fixture.collaborators
              (Fixture.state_with Fixture.movingReading 0) 1%positive
              Fixture.base Fixture.five
              (Number.mag 5629499534213120 (-50)) (Some 0%Z)
              R eq_refl (mag_pos _ _)) as (_ & _ & E & _).
  exact E.
Defined.

(** ** The sanitizer on other inputs *)

Section SanitizerEdges.
Context {C : Collaborators}.

Lemma state_eta (s : state) : mkState (st_heap s) (st_trace s) = s.
Proof. destruct s. reflexivity. Qed.

(** X4.  Handed a value that is no object, [createMovingMotion] fails
    without reaching the database client, and leaves the state as it was.
    [undefined] and [null] are copied as themselves and raise a TypeError
    when the status is read; any other primitive is copied as itself, passes
    [assertIsMoving] for want of a status, and is rejected with
    'UnknownDataType' for want of a speed. *)
Theorem createMovingMotion_rejects_non_objects (v : value) (s : state) :
  is_primitive v = true ->
  MotionRepository.createMovingMotion v s =
  (Abrupt (non_object_failure v), s).
Proof.
  intros Hp. rewrite createMovingMotion_steps. unfold structuredClone.
  rewrite (clone_primitive _ v _ Hp), state_eta.
  destruct v; try discriminate; reflexivity.
Qed.

Lemma isStatic_state (motionDto : value) (s : state) :
  (isStatic motionDto s).2 = s.
Proof.
  unfold isStatic, bind.
  pose proof (get_prop_state motionDto "status" s) as Hg.
  destruct (get_prop motionDto "status" s) as [[status|e] s1]; exact Hg.
Qed.

(** X5.  The guard and the two assertions only read: whatever [isStatic],
    [assertIsMoving] and [assertNotZeroOrNegative] are handed, and whether
    they return or throw, the heap and the trace are as they were. *)
Theorem validators_leave_the_state (v : value) (s : state) :
  (isStatic v s).2 = s
  /\ (assertIsMoving v s).2 = s
  /\ (assertNotZeroOrNegative v s).2 = s.
Proof.
  split; [apply isStatic_state|].
  split; [apply assertIsMoving_state | apply assertNotZeroOrNegative_state].
Qed.


End SanitizerEdges.

Lemma createMovingMotion_rejects_non_objects_witness :
  @MotionRepository.createMovingMotion Fixture.collaborators VUndefined
    (Fixture.state_with Fixture.movingReading 0) =
  (Abrupt TypeError, Fixture.state_with Fixture.movingReading 0)
  /\ @MotionRepository.createMovingMotion Fixture.collaborators
       (VString "moving") (Fixture.state_with Fixture.movingReading 0) =
     (Abrupt (ThrowString "UnknownDataType"),
      Fixture.state_with Fixture.movingReading 0).
Proof.
  split.
  - exact (@createMovingMotion_rejects_non_objects Fixture.collaborators
             VUndefined _ eq_refl).
  - exact (@createMovingMotion_rejects_non_objects Fixture.collaborators
             (VString "moving") _ eq_refl).
Defined.


(** ** What the sensitivity rule may do *)

Section RuleEffects.
Context {L : Luxon} {P : Host} {C : Collaborators}.

Lemma toISOString_state (date : value) (s : state) :
  (toISOString formatISO date s).2 = s.
Proof.
  unfold toISOString. destruct date; try reflexivity.
  destruct (st_heap s !! l) as [[props | [ms|]]|]; reflexivity.
Qed.

Ltac step_get o k s :=
  let Hg := fresh "Hg" in
  unfold bind at 1;
  pose proof (get_prop_state o k s) as Hg;
  destruct (get_prop o k s) as [[?|?] ?]; simpl in Hg; subst.

Ltac nothing_added :=
  eexists _, []; split;
  [rewrite app_nil_r, state_eta; reflexivity | left; reflexivity].

Ltac lookup_added f :=
  eexists _, [f]; split;
  [reflexivity | right; exists f; split; [reflexivity | left; reflexivity]].

Ltac warning_added f w :=
  eexists _, [f; w]; split;
  [simpl; rewrite <- app_assoc; reflexivity
  | right; exists f; split;
    [reflexivity | right; exists w; split; reflexivity]].

Ltac after_lookup f s1 v :=
  step_get v "timestamp" s1; [|lookup_added f];
  unfold bind at 1;
  match goal with
  | |- context [toISOString formatISO ?d s1] =>
      let Ht := fresh "Ht" in
      pose proof (toISOString_state d s1) as Ht;
      destruct (toISOString formatISO d s1) as [[?|?] ?]; simpl in Ht; subst;
      [|lookup_added f]
  end;
  destruct (Number.gt _ _); [|lookup_added f];
  unfold bind;
  match goal with
  | |- context [get_prop v "deviceId" s1] =>
      let Hd := fresh "Hd" in
      pose proof (get_prop_state v "deviceId" s1) as Hd;
      destruct (get_prop v "deviceId" s1) as [[d|?] ?]; simpl in Hd; subst;
      [|lookup_added f]
  end.

(** X7.  Whatever [sanityCheckSensitivity] is handed, and whether it returns
    or fails, the heap is as it was and the trace has gained nothing, or one
    lookup of the history, or one lookup followed by one warning.  So the
    rule never warns without having looked a record up, never looks up
    twice, and never calls the database client. *)
Theorem sanityCheckSensitivity_effects (v : value) (s : state) :
  exists c new,
    sanityCheckSensitivity v s =
    (c, mkState (st_heap s) (st_trace s ++ new)) /\
    lookup_then_warning new.
Proof.
  unfold sanityCheckSensitivity. unfold bind at 1.
  pose proof (isStatic_state v s) as Hs.
  destruct (isStatic v s) as [[static|e] s0]; simpl in Hs; subst s0;
    [|nothing_added].
  destruct static.
  - step_get v "deviceId" s; [|nothing_added].
    unfold motionRepository.getLastMovingRecord.
    unfold bind at 1. rewrite bind_emit. unfold await.
    match goal with
    | |- context [st_trace s ++ [?f]] => set (fetch := f)
    end.
    set (s1 := mkState _ _).
    destruct (lastMovingRecord _) as [record | e]; [|lookup_added fetch].
    after_lookup fetch s1 v.
    unfold console_warn, emit. simpl.
    warning_added fetch (ConsoleWarn too_low_strings [d]).
  - step_get v "deviceId" s; [|nothing_added].
    unfold motionRepository.getLastStaticRecord.
    unfold bind at 1. rewrite bind_emit. unfold await.
    match goal with
    | |- context [st_trace s ++ [?f]] => set (fetch := f)
    end.
    set (s1 := mkState _ _).
    destruct (lastStaticRecord _) as [record | e]; [|lookup_added fetch].
    after_lookup fetch s1 v.
    unfold console_warn, emit. simpl.
    warning_added fetch (ConsoleWarn too_high_strings [d]).
Qed.

End RuleEffects.

(** ** What the overconsumption rule may do *)

Section NotifyEffects.

(** Whether a property read succeeds depends on the object and the heap,
    not on the property. *)
Lemma get_prop_defined (o : value) (k k' : string) (s s0 s1 : state)
    (x : value) :
  get_prop o k s = (Normal x, s0) ->
  st_heap s1 = st_heap s ->
  exists y, get_prop o k' s1 = (Normal y, s1).
Proof.
  unfold get_prop. intros Hg ->.
  destruct o; try discriminate; try (eexists; reflexivity).
  destruct (st_heap s !! l) as [[props | tv]|]; try discriminate;
    eexists; reflexivity.
Qed.

Lemma assertIsMoving_reads_status (v : value) (s s0 : state) :
  assertIsMoving v s = (Normal tt, s0) ->
  exists x, get_prop v "status" s = (Normal x, s).
Proof.
  unfold assertIsMoving, bind. intros Ha.
  pose proof (get_prop_state v "status" s) as Hg.
  destruct (get_prop v "status" s) as [[x|e] s1]; simpl in Hg; subst s1;
    [eexists; reflexivity | discriminate].
Qed.

(** X8.  Whatever [notifyMeOnMovingHighConsumptionDevice] is handed, and
    whether it returns or fails, the heap is as it was and the trace has
    gained either nothing, or exactly two warnings, and then the rule
    returned normally.  So the rule never issues one warning and fails, and
    never consults the history or the database. *)
Theorem notify_effects (v : value) (meterDto : MeterDto.t) (s : state) :
  exists c new,
    notifyMeOnMovingHighConsumptionDevice v meterDto s =
    (c, mkState (st_heap s) (st_trace s ++ new)) /\
    nothing_or_two_warnings c new.
Proof.
  unfold notifyMeOnMovingHighConsumptionDevice.
  destruct (isPowerConsumptionHigh meterDto); simpl.
  2: { eexists _, []. split; [|left; reflexivity].
       rewrite app_nil_r, state_eta. reflexivity. }
  unfold bind at 1.
  pose proof (assertIsMoving_state v s) as Hs.
  destruct (assertIsMoving v s) as [[[]|e] s0] eqn:Ha; simpl in Hs; subst s0.
  2: { eexists _, []. split; [|left; reflexivity].
       rewrite app_nil_r, state_eta. reflexivity. }
  destruct (assertIsMoving_reads_status v s s Ha) as [st Hst].
  destruct (get_prop_defined v "status" "deviceId" s s s st Hst eq_refl)
    as [dev Hdev].
  rewrite (bind_normal _ _ _ _ _ Hdev).
  unfold console_warn. rewrite bind_emit. set (s1 := mkState _ _).
  destruct (get_prop_defined v "status" "sensorId" s s s1 st Hst eq_refl)
    as [sen Hsen].
  destruct (get_prop_defined v "status" "speed" s s s1 st Hst eq_refl)
    as [spd Hspd].
  rewrite (bind_normal _ _ _ _ _ Hsen), (bind_normal _ _ _ _ _ Hspd).
  eexists _, [_; _]. split.
  - unfold emit, s1. simpl. rewrite <- app_assoc. reflexivity.
  - right. eexists _, _. repeat split; reflexivity.
Qed.

End NotifyEffects.

Section RuleFailures.
Context {L : Luxon} {P : Host} {C : Collaborators}.

(** X9.  On a reading, a rejection of the history lookup is the outcome of
    [sanityCheckSensitivity]; and when the lookup answers but the timestamp
    of the reading is an invalid [Date], the rule fails with the RangeError
    of [toISOString].  In both cases the lookup is what the trace gained:
    no warning was issued. *)
Theorem sanityCheckSensitivity_failures (s : state) (l : loc)
    (m : MotionDto) (tv : option Z) :
  reading_at (st_heap s) l m tv ->
  let looked_up := mkState (st_heap s) (st_trace s ++ [opposite_fetch m]) in
  (forall e,
      opposite_record m = Abrupt e ->
      sanityCheckSensitivity (VRef l) s = (Abrupt e, looked_up))
  /\ (forall record,
         opposite_record m = Normal record -> tv = None ->
         sanityCheckSensitivity (VRef l) s = (Abrupt RangeError, looked_up)).
Proof.
  intros Hr looked_up. split.
  - intros e He. rewrite (sanityCheckSensitivity_run s l m tv Hr), He.
    reflexivity.
  - intros record Hrec ->.
    rewrite (sanityCheckSensitivity_run s l m None Hr), Hrec. reflexivity.
Qed.

(** X10.  [sanityCheckSensitivity] takes every object that [isStatic]
    turns down for a moving reading.  On an object whose status is anything
    but 'static', another tag or none at all, and whose timestamp is a
    valid [Date], the last static record is looked up, and the 'too high'
    warning is issued exactly when more than twelve hours have passed. *)
Theorem sanityCheckSensitivity_other_tags_as_moving (s : state) (l ld : loc)
    (props : list (string * value)) (ms : Z) (record : HistoricalRecord) :
  st_heap s !! l = Some (OPlain props) ->
  strict_eq (get_own props "status") (VString "static") = false ->
  get_own props "timestamp" = VRef ld ->
  st_heap s !! ld = Some (ODate (Some ms)) ->
  lastStaticRecord (get_own props "deviceId") = Normal record ->
  let device := get_own props "deviceId" in
  sanityCheckSensitivity (VRef l) s =
  (Normal tt,
   mkState (st_heap s)
     (st_trace s ++
      GetLastStaticRecord device ::
      if Number.gt (elapsed_hours ms record) Number.twelve
      then [ConsoleWarn too_high_strings [device]]
      else [])).
Proof.
  intros Hl Htag Hts Hld Hrec device. unfold sanityCheckSensitivity.
  rewrite (bind_normal _ _ _ _ _ (isStatic_plain s l _ Hl)), Htag.
  rewrite (bind_normal _ _ _ _ _ (get_prop_plain s l _ "deviceId" Hl)).
  unfold motionRepository.getLastStaticRecord.
  unfold bind at 1. rewrite bind_emit. unfold await. rewrite Hrec.
  set (s1 := mkState _ _).
  rewrite (bind_normal _ _ _ _ _ (get_prop_plain s1 l _ "timestamp" Hl)), Hts.
  unfold bind at 1. rewrite (toISOString_date s1 ld _ Hld).
  fold (elapsed_hours ms record).
  destruct (Number.gt _ _); [|reflexivity].
  rewrite (bind_normal _ _ _ _ _ (get_prop_plain s1 l _ "deviceId" Hl)).
  unfold console_warn, emit, s1. simpl. rewrite <- app_assoc. reflexivity.
Qed.

End RuleFailures.

Lemma sanityCheckSensitivity_failures_witness :
  @sanityCheckSensitivity Fixture.luxon Fixture.host Cases.emptyHistory
    (VRef 1%positive) (Fixture.state_with Fixture.staticReading 0) =
  (Abrupt (Rejected (VString "no record")),
   mkState (st_heap (Fixture.state_with Fixture.staticReading 0))
     [GetLastMovingRecord (VString "device-1")])
  /\ @sanityCheckSensitivity Fixture.luxon Fixture.host
       Fixture.collaborators (VRef 1%positive)
       (Cases.state_undated Fixture.movingReading) =
     (Abrupt RangeError,
      mkState (st_heap (Cases.state_undated Fixture.movingReading))
        [GetLastStaticRecord (VString "device-1")]).
Proof.
  split.
  - assert (R : reading_at
                  (st_heap (Fixture.state_with Fixture.staticReading 0))
                  1%positive Fixture.staticReading (Some 0%Z))
      by (apply reading_at_fixture; reflexivity).
    destruct (@sanityCheckSensitivity_failures Fixture.luxon Fixture.host
                Cases.emptyHistory _ _ _ _ R) as (A & _).
    exact (A _ eq_refl).
  - assert (R : reading_at
                  (st_heap (Cases.state_undated Fixture.movingReading))
                  1%positive Fixture.movingReading None)
      by (repeat split).
    destruct (@sanityCheckSensitivity_failures Fixture.luxon Fixture.host
                Fixture.collaborators _ _ _ _ R) as (_ & B).
    exact (B Fixture.hour0 eq_refl eq_refl).
Defined.

Lemma sanityCheckSensitivity_other_tags_as_moving_witness :
  @sanityCheckSensitivity Fixture.luxon Fixture.host Fixture.collaborators
    (VRef 1%positive) (Cases.state_paused 46800000) =
  (Normal tt,
   mkState (st_heap (Cases.state_paused 46800000))
     [GetLastStaticRecord (VString "device-1");
      ConsoleWarn too_high_strings [VString "device-1"]]).
Proof.
  rewrite (@sanityCheckSensitivity_other_tags_as_moving
             Fixture.luxon Fixture.host Fixture.collaborators
             (Cases.state_paused 46800000) 1%positive 2%positive
             (base_props Fixture.base "paused") 46800000 Fixture.hour0
             eq_refl eq_refl eq_refl eq_refl eq_refl).
  vm_compute. reflexivity.
Defined.

(** ** The guard and the classifier *)

Section Guards.

(** X11.  On a reading [isStatic] answers [true] exactly when the reading
    is of the static variant and [false] exactly when it is of the moving
    one, leaving the state as it was. *)
Theorem isStatic_decides_the_variant (s : state) (l : loc) (m : MotionDto) :
  st_heap s !! l = Some (OPlain (props_of m)) ->
  (isStatic (VRef l) s = (Normal true, s) <->
   exists b, m = StaticMotionDto b)
  /\ (isStatic (VRef l) s = (Normal false, s) <->
      exists b speed, m = MovingMotionDto b speed).
Proof.
  intros Hl. rewrite (isStatic_plain s l _ Hl).
  destruct m as [b | b speed];
    change (strict_eq _ _) with true || change (strict_eq _ _) with false.
  - split; split; try discriminate; eauto.
    intros (b' & speed & E). discriminate.
  - split; split; try discriminate; eauto.
    intros (b' & E). discriminate.
Qed.

Lemma strict_eq_string (v : value) (str : string) :
  strict_eq v (VString str) = true -> v = VString str.
Proof.
  destruct v; simpl; try discriminate.
  intros E. apply String.eqb_eq in E. congruence.
Qed.

(** X12.  Whatever [isStatic] accepts, [assertIsMoving] lets through, and
    leaves the state as it was: the assertion fails on nothing that the
    guard calls static. *)
Theorem isStatic_then_assertIsMoving_passes (v : value) (s s0 : state) :
  isStatic v s = (Normal true, s0) ->
  assertIsMoving v s = (Normal tt, s).
Proof.
  unfold isStatic, assertIsMoving, bind.
  pose proof (get_prop_state v "status" s) as Hg.
  destruct (get_prop v "status" s) as [[status|e] s1]; simpl in Hg; subst s1;
    [|discriminate].
  intros [= Htag _]. apply strict_eq_string in Htag. subst status.
  reflexivity.
Qed.

End Guards.

Section ClassifierEdges.

Lemma SFcompare_antisym (x y : spec_float) :
  SFcompare y x = option_map CompOpp (SFcompare x y).
Proof.
  destruct x as [sx | sx | | sx mx ex], y as [sy | sy | | sy my ey];
    simpl; try reflexivity;
    try (destruct sx; reflexivity); try (destruct sy; reflexivity);
    try (destruct sx, sy; reflexivity).
  f_equal. rewrite (Z.compare_antisym ex ey).
  change (Pos.compare_cont Eq my mx)
    with (Pos.compare_cont (CompOpp Eq) my mx).
  rewrite <- (Pos.compare_cont_antisym mx my Eq).
  destruct sx, sy; simpl; try reflexivity;
    destruct (ex ?= ey)%Z; simpl; try reflexivity;
    destruct (Pos.compare_cont Eq mx my); reflexivity.
Qed.

(** X13.  [isPowerConsumptionHigh] is asymmetric: when a meter reading is
    high, the reading with consumption and maximum exchanged is not.  And a
    reading in which either of the two numbers is NaN is never high. *)
Theorem isPowerConsumptionHigh_never_both_ways (m : MeterDto.t) :
  (isPowerConsumptionHigh m = true ->
   isPowerConsumptionHigh (exchanged m) = false)
  /\ (MeterDto.powerConsumption m = S754_nan \/
      MeterDto.maximumPowerConsumption m = S754_nan ->
      isPowerConsumptionHigh m = false).
Proof.
  unfold isPowerConsumptionHigh, exchanged, Number.gt, SFltb. simpl.
  split.
  - rewrite (SFcompare_antisym (MeterDto.maximumPowerConsumption m)
                               (MeterDto.powerConsumption m)).
    destruct (SFcompare _ _) as [[| |]|]; simpl; congruence.
  - intros [-> | ->]; [|reflexivity].
    destruct (MeterDto.maximumPowerConsumption m); reflexivity.
Qed.

End ClassifierEdges.

Lemma isStatic_decides_the_variant_witness :
  isStatic (VRef 1%positive) (Fixture.state_with Fixture.staticReading 0) =
  (Normal true, Fixture.state_with Fixture.staticReading 0)
  /\ isStatic (VRef 1%positive) (Fixture.state_with Fixture.movingReading 0) =
     (Normal false, Fixture.state_with Fixture.movingReading 0).
Proof.
  split.
  - destruct (isStatic_decides_the_variant
                (Fixture.state_with Fixture.staticReading 0) 1%positive
                Fixture.staticReading eq_refl) as (A & _).
    apply (proj2 A). eexists. reflexivity.
  - destruct (isStatic_decides_the_variant
                (Fixture.state_with Fixture.movingReading 0) 1%positive
                Fixture.movingReading eq_refl) as (_ & B).
    apply (proj2 B). eexists _, _. reflexivity.
Defined.

Lemma isStatic_then_assertIsMoving_passes_witness :
  assertIsMoving (VRef 1%positive)
    (Fixture.state_with Fixture.staticReading 0) =
  (Normal tt, Fixture.state_with Fixture.staticReading 0).
Proof.
  apply (isStatic_then_assertIsMoving_passes (VRef 1%positive)
           (Fixture.state_with Fixture.staticReading 0)
           (Fixture.state_with Fixture.staticReading 0)).
  reflexivity.
Defined.

Lemma isPowerConsumptionHigh_never_both_ways_witness :
  isPowerConsumptionHigh (exchanged Fixture.highMeter) = false.
Proof.
  apply (proj1 (isPowerConsumptionHigh_never_both_ways Fixture.highMeter)).
  reflexivity.
Defined.

(** ** The speeds that count as moving *)

Section MovingAssertionExact.

Lemma truthy_number (n : number) :
  truthy (VNumber n) = true <->
  n <> S754_nan /\ (forall q, Number.toQ n = Some q -> ~ (q == 0)%Q).
Proof.
  destruct n as [sg | sg | | sg m e]; simpl.
  - split; [discriminate|]. intros [_ Hz].
    destruct (Hz 0%Q eq_refl). reflexivity.
  - split; [|reflexivity]. intros _.
    split; [discriminate | intros q; discriminate].
  - split; [discriminate|]. intros [Hn _]. congruence.
  - split; [|reflexivity]. intros _. split; [discriminate|].
    intros q Hq Hz. pose proof (toQ_sign sg m e q Hq) as Hs.
    destruct sg; rewrite Hz in Hs; exact (Qlt_irrefl 0 Hs).
Qed.

(** X14.  On an object tagged 'moving', [assertIsMoving] returns normally
    exactly when the speed is truthy and throws 'NotMoving!' exactly when
    it is falsy.  For a speed that is a number, it returns normally exactly
    when the number is neither NaN nor zero: negative speeds and the
    infinities pass. *)
Theorem assertIsMoving_moving_exactly (s : state) (l : loc)
    (props : list (string * value)) :
  st_heap s !! l = Some (OPlain props) ->
  get_own props "status" = VString "moving" ->
  (assertIsMoving (VRef l) s = (Normal tt, s) <->
   truthy (get_own props "speed") = true)
  /\ (assertIsMoving (VRef l) s = (Abrupt (ThrowString "NotMoving!"), s) <->
      truthy (get_own props "speed") = false)
  /\ (forall n,
         get_own props "speed" = VNumber n ->
         (assertIsMoving (VRef l) s = (Normal tt, s) <->
          n <> S754_nan /\
          (forall q, Number.toQ n = Some q -> ~ (q == 0)%Q))).
Proof.
  intros Hl Htag. rewrite (assertIsMoving_plain s l props Hl), Htag.
  change (strict_eq _ _) with true. cbn [andb].
  assert (Hyes : (if negb (truthy (get_own props "speed"))
                  then (Abrupt (ThrowString "NotMoving!"), s)
                  else (Normal tt, s)) = (Normal tt, s) <->
                 truthy (get_own props "speed") = true).
  { destruct (truthy _); simpl; split; congruence. }
  split; [exact Hyes|]. split.
  - destruct (truthy _); simpl; split; congruence.
  - intros n Hn. rewrite Hyes, Hn. apply truthy_number.
Qed.

End MovingAssertionExact.

Lemma assertIsMoving_moving_exactly_witness :
  assertIsMoving (VRef 1%positive)
    (Fixture.state_with Cases.backwardReading 0) =
  (Normal tt, Fixture.state_with Cases.backwardReading 0)
  /\ assertIsMoving (VRef 1%positive)
       (Fixture.state_with Cases.nanReading 0) =
     (Abrupt (ThrowString "NotMoving!"),
      Fixture.state_with Cases.nanReading 0).
Proof.
  split.
  - destruct (assertIsMoving_moving_exactly
                (Fixture.state_with Cases.backwardReading 0) 1%positive
                (props_of Cases.backwardReading) eq_refl eq_refl)
      as (A & _).
    apply (proj2 A). reflexivity.
  - destruct (assertIsMoving_moving_exactly
                (Fixture.state_with Cases.nanReading 0) 1%positive
                (props_of Cases.nanReading) eq_refl eq_refl)
      as (_ & B & _).
    apply (proj2 B). reflexivity.
Defined.

(** ** Sample runs *)

(** The cases the specification lists as tests, run on the test doubles. *)

Section Samples.

Example static_at_hour_13_warns_too_low :
  Fixture.rule_trace Fixture.collaborators Fixture.staticReading 46800000 =
  [GetLastMovingRecord (VString "device-1");
   ConsoleWarn too_low_strings [VString "device-1"]].
Proof. vm_compute. reflexivity. Qed.

Example static_at_hour_12_is_silent :
  Fixture.rule_trace Fixture.collaborators Fixture.staticReading 43200000 =
  [GetLastMovingRecord (VString "device-1")].
Proof. vm_compute. reflexivity. Qed.

Example static_at_hour_11_999_is_silent :
  Fixture.rule_trace Fixture.collaborators Fixture.staticReading 43196400 =
  [GetLastMovingRecord (VString "device-1")].
Proof. vm_compute. reflexivity. Qed.

Example moving_at_hour_13_warns_too_high :
  Fixture.rule_trace Fixture.collaborators Fixture.movingReading 46800000 =
  [GetLastStaticRecord (VString "device-1");
   ConsoleWarn too_high_strings [VString "device-1"]].
Proof. vm_compute. reflexivity. Qed.

Example reading_before_record_is_silent :
  Fixture.rule_trace Fixture.lateHistory Fixture.staticReading 0 =
  [GetLastMovingRecord (VString "device-1")].
Proof. vm_compute. reflexivity. Qed.

Example high_consumption_moving_warns_twice :
  st_trace (notifyMeOnMovingHighConsumptionDevice (VRef 1%positive)
              Fixture.highMeter
              (Fixture.state_with Fixture.movingReading 0)).2 =
  [ConsoleWarn high_power_strings [VString "device-1"];
   ConsoleWarn moving_cause_strings
     [VString "sensor-1"; VNumber Fixture.five]].
Proof. vm_compute. reflexivity. Qed.

Example low_consumption_static_does_nothing :
  notifyMeOnMovingHighConsumptionDevice (VRef 1%positive) Fixture.lowMeter
    (Fixture.state_with Fixture.staticReading 0) =
  (Normal tt, Fixture.state_with Fixture.staticReading 0).
Proof. vm_compute. reflexivity. Qed.

Example moving_reading_is_persisted :
  let run := @MotionRepository.createMovingMotion Fixture.collaborators
               (VRef 1%positive)
               (Fixture.state_with Fixture.movingReading 0) in
  run.1 = Normal (VRef 4%positive)
  /\ st_trace run.2 = [DbCreate (VRef 4%positive)]
  /\ st_heap run.2 !! 1%positive =
     Some (OPlain (props_of Fixture.movingReading))
  /\ st_heap run.2 !! 4%positive =
     Some (OPlain
             (props_of (with_timestamp Fixture.movingReading 3%positive)
              ++ [("id", VNumber (Number.ofZ 1))])).
Proof. vm_compute. repeat split; reflexivity. Qed.

Example smallest_positive_number_passes :
  assertNotZeroOrNegative (VNumber (S754_finite false 1 (-1074)))
    (Fixture.state_with Fixture.movingReading 0) =
  (Normal tt, Fixture.state_with Fixture.movingReading 0).
Proof. reflexivity. Qed.

Example not_a_number_is_of_unknown_type :
  (assertNotZeroOrNegative (VNumber S754_nan)
     (Fixture.state_with Fixture.movingReading 0)).1 =
  Abrupt (ThrowString "UnknownDataType").
Proof. reflexivity. Qed.

End Samples.
